(** * The Direct (DOM tree) mounter of react-confirm

    Shallow embedding of [src/mounter/domTree.tsx]: the closure created by
    [createDomTreeMounter] (the [confirms] registry and the [callbacks]
    record), the part of the host it talks to (the document, the parent
    pointers of the DOM, the React roots, the console), and the two
    operations [mount] and [unmount] written in a small monad that threads
    the world and carries JavaScript exceptions. *)

From Stdlib Require Import ZArith QArith Qround String Ascii HexString List.
From stdpp Require Import base gmap strings list.
Import ListNotations.

Local Open Scope Z_scope.
Local Open Scope string_scope.
Local Open Scope list_scope.

(** ** Numbers and keys *)

Module Js.

(** The 32-bit signed wrap-around of the shift operators. *)
Definition int32 (z : Z) : Z := (z + 2 ^ 31) mod 2 ^ 32 - 2 ^ 31.

(** [a << b]. *)
Definition shl (a b : Z) : Z := int32 (Z.shiftl (int32 a) (b mod 32)).

(** [Math.floor] on a rational (every finite double is one). *)
Definition floor (q : Q) : Z := Qfloor q.

(** [n.toString(16)] for an integral number: lower-case digits, no
    prefix, no leading zero, a minus sign for negatives. *)
Definition toString16 (z : Z) : string :=
  match z with
  | Z0 => "0"
  | Zpos p => HexString.Raw.of_pos p ""
  | Zneg p => String "-" (HexString.Raw.of_pos p "")
  end.

(** Reading such a rendering back. *)
Definition parse16 (s : string) : Z :=
  match s with
  | String "-" s' => Z.opp (Z.of_N (HexString.Raw.to_N s' 0%N))
  | _ => Z.of_N (HexString.Raw.to_N s 0%N)
  end.

(** The property names every plain object inherits from
    [Object.prototype]. *)
Definition object_prototype_names : list string :=
  [ "constructor"; "__defineGetter__"; "__defineSetter__"; "hasOwnProperty";
    "__lookupGetter__"; "__lookupSetter__"; "isPrototypeOf";
    "propertyIsEnumerable"; "toString"; "valueOf"; "__proto__";
    "toLocaleString" ].

Definition inherited (name : string) : bool :=
  existsb (String.eqb name) object_prototype_names.

End Js.

(** [const generateKey = () => Math.floor(Math.random() * (1 << 30)).toString(16)];
    the argument is the value [Math.random()] returned. *)
Definition generateKey (random : Q) : string :=
  Js.toString16 (Js.floor (random * inject_Z (Js.shl 1 30))).

(** ** Data model *)

Definition Node := nat.
Definition RootId := nat.
Definition CallbackId := nat.
Definition Component := string.
Definition Props := list (string * string).

(** A React element: its type, its [key] and [ref], and its props. *)
Record ReactElement := {
  el_type : Component;
  el_key : option string;
  el_ref : option string;
  el_props : Props
}.

(** The names the JSX runtime of React 18 takes out of the props. *)
Definition reserved_props : list string := ["key"; "ref"; "__self"; "__source"].

Definition reserved (name : string) : bool :=
  existsb (String.eqb name) reserved_props.

(** [props[name]], for props given as the list of their own properties. *)
Fixpoint prop (name : string) (props : Props) : option string :=
  match props with
  | [] => None
  | (n, v) :: rest => if String.eqb name n then Some v else prop name rest
  end.

(** The value of [<Component {...props} />], that is
    [jsx(Component, __assign({}, props))]: [key] and [ref] are read from the
    props, and every other own property is copied. *)
Definition jsx (C : Component) (props : Props) : ReactElement :=
  {| el_type := C;
     el_key := prop "key" props;
     el_ref := prop "ref" props;
     el_props := List.filter (fun nv => negb (reserved (fst nv))) props |}.

(** [type ConfirmationEntry = { wrapper: HTMLElement; root: Root }] *)
Record ConfirmationEntry := { wrapper : Node; root : RootId }.

(** [const callbacks: { mounted?: () => void }] *)
Record Callbacks := { mounted : option CallbackId }.

(** What the host knows about a root made by [createRoot]. *)
Record RootState := {
  container : Node;
  rendered : option ReactElement;
  unmounted : bool
}.

(** [document]; [body] is [None] when [document.body] is [null]. *)
Record Document := { body : option Node }.

Inductive Error :=
| TypeError (reading : string)
| ReferenceError (name : string)
| HostError (code : nat).

Inductive Outcome (A : Type) :=
| Returned (a : A)
| Thrown (e : Error).
Arguments Returned {A} a.
Arguments Thrown {A} e.

(** The closure of one mounter together with the host state it acts on. *)
Record World := {
  confirms : gmap string ConfirmationEntry;
  callbacks : Callbacks;
  document : option Document;
  dom_parent : gmap Node Node;
  next_node : Node;
  roots : gmap RootId RootState;
  next_root : RootId;
  console : list (string * Error);
  invoked : list CallbackId
}.

Definition with_confirms (f : gmap string ConfirmationEntry -> gmap string ConfirmationEntry)
    (w : World) : World :=
  {| confirms := f (confirms w); callbacks := callbacks w; document := document w;
     dom_parent := dom_parent w; next_node := next_node w; roots := roots w;
     next_root := next_root w; console := console w; invoked := invoked w |}.

Definition with_dom (f : gmap Node Node -> gmap Node Node) (w : World) : World :=
  {| confirms := confirms w; callbacks := callbacks w; document := document w;
     dom_parent := f (dom_parent w); next_node := next_node w; roots := roots w;
     next_root := next_root w; console := console w; invoked := invoked w |}.

Definition with_next_node (n : Node) (w : World) : World :=
  {| confirms := confirms w; callbacks := callbacks w; document := document w;
     dom_parent := dom_parent w; next_node := n; roots := roots w;
     next_root := next_root w; console := console w; invoked := invoked w |}.

Definition with_roots (f : gmap RootId RootState -> gmap RootId RootState)
    (w : World) : World :=
  {| confirms := confirms w; callbacks := callbacks w; document := document w;
     dom_parent := dom_parent w; next_node := next_node w; roots := f (roots w);
     next_root := next_root w; console := console w; invoked := invoked w |}.

Definition with_next_root (r : RootId) (w : World) : World :=
  {| confirms := confirms w; callbacks := callbacks w; document := document w;
     dom_parent := dom_parent w; next_node := next_node w; roots := roots w;
     next_root := r; console := console w; invoked := invoked w |}.

Definition with_console (f : list (string * Error) -> list (string * Error))
    (w : World) : World :=
  {| confirms := confirms w; callbacks := callbacks w; document := document w;
     dom_parent := dom_parent w; next_node := next_node w; roots := roots w;
     next_root := next_root w; console := f (console w); invoked := invoked w |}.

Definition with_invoked (f : list CallbackId -> list CallbackId) (w : World) : World :=
  {| confirms := confirms w; callbacks := callbacks w; document := document w;
     dom_parent := dom_parent w; next_node := next_node w; roots := roots w;
     next_root := next_root w; console := console w; invoked := f (invoked w) |}.

(** ** The monad: state that survives a throw *)

Definition M (A : Type) : Type := World -> Outcome A * World.

Definition ret {A} (a : A) : M A := fun w => (Returned a, w).

Definition throw {A} (e : Error) : M A := fun w => (Thrown e, w).

Definition bind {A B} (m : M A) (k : A -> M B) : M B :=
  fun w =>
    match m w with
    | (Returned a, w') => k a w'
    | (Thrown e, w') => (Thrown e, w')
    end.

(** [try { body } catch (error) { handler }] *)
Definition try_catch {A} (body : M A) (handler : Error -> M A) : M A :=
  fun w =>
    match body w with
    | (Returned a, w') => (Returned a, w')
    | (Thrown e, w') => handler e w'
    end.

Definition modify (f : World -> World) : M unit := fun w => (Returned tt, f w).

Declare Scope js_scope.
Delimit Scope js_scope with js.
Notation "'let*' x ':=' m 'in' k" := (bind m (fun x => k))
  (at level 10, x name, m at level 100, k at level 200) : js_scope.
Notation "m ;; k" := (bind m (fun _ => k))
  (at level 100, k at level 200, right associativity) : js_scope.
Local Open Scope js_scope.

(** ** The host: DOM, React and console primitives

    Every call into the host may throw; whether it does is an input of the
    model, given per call site.  A host call that throws leaves the world as
    it found it. *)

Record MountHost := {
  random : Q;                          (* what Math.random() returns *)
  createElement_throws : option Error;
  appendChild_throws : option Error;
  createRoot_throws : option Error;
  render_throws : option Error;
  mounted_throws : option Error
}.

Record UnmountHost := {
  unmount_throws : option Error;
  remove_throws : option Error
}.

(** Reading a property or calling a method of [null] or [undefined]. *)
Definition member {A} (receiver : option A) (name : string) : M A :=
  match receiver with
  | Some a => ret a
  | None => throw (TypeError name)
  end.

Definition host_throws (fault : option Error) : M unit :=
  match fault with
  | Some e => throw e
  | None => ret tt
  end.

(** [document.createElement('div')]: a fresh, detached node. *)
Definition createElement (fault : option Error) : M Node :=
  fun w =>
    match document w with
    | None => (Thrown (ReferenceError "document"), w)
    | Some _ =>
        match fault with
        | Some e => (Thrown e, w)
        | None => (Returned (next_node w), with_next_node (S (next_node w)) w)
        end
    end.

(** [parent.appendChild(child)], which returns [child]. *)
Definition appendChild (fault : option Error) (parent child : Node) : M Node :=
  host_throws fault ;;
  modify (with_dom (fun d => <[child := parent]> d)) ;;
  ret child.

(** [createRoot(container)] *)
Definition createRoot (fault : option Error) (c : Node) : M RootId :=
  host_throws fault ;;
  fun w =>
    let r := next_root w in
    (Returned r,
     with_next_root (S r)
       (with_roots (fun rs => <[r := {| container := c; rendered := None;
                                        unmounted := false |}]> rs) w)).

(** [root.render(element)]; React refuses to update an unmounted root.
    The model records the element handed to the root.  React commits it to
    the container later, outside the call; what that commit does to the
    children of the container is not part of the model. *)
Definition render (fault : option Error) (r : RootId) (el : ReactElement) : M unit :=
  host_throws fault ;;
  fun w =>
    match roots w !! r with
    | Some rs =>
        if unmounted rs then (Thrown (HostError 0), w)
        else (Returned tt,
              with_roots (fun m => <[r := {| container := container rs;
                                             rendered := Some el;
                                             unmounted := false |}]> m) w)
    | None => (Thrown (HostError 0), w)
    end.

(** [root.unmount()]; unmounting twice is silently accepted by React. *)
Definition root_unmount (fault : option Error) (r : RootId) : M unit :=
  host_throws fault ;;
  modify (with_roots (fun m =>
    match m !! r with
    | Some rs => <[r := {| container := container rs; rendered := None;
                           unmounted := true |}]> m
    | None => m
    end)).

(** [node.remove()] *)
Definition remove (fault : option Error) (n : Node) : M unit :=
  host_throws fault ;;
  modify (with_dom (fun d => delete n d)).

(** [console.warn(message, error)] *)
Definition console_warn (message : string) (error : Error) : M unit :=
  modify (with_console (fun log => (log ++ [(message, error)])%list)).

(** ** The closure of [createDomTreeMounter] *)

(** What [confirms[key]] evaluates to on the plain object [confirms]. *)
Inductive Lookup :=
| Own (entry : ConfirmationEntry)     (* an own property: a tracked entry *)
| Inherited                           (* found on Object.prototype *)
| Undefined.

Definition truthy (v : Lookup) : bool :=
  match v with
  | Own _ | Inherited => true
  | Undefined => false
  end.

(** [confirmation.root] and [confirmation.wrapper]; [None] is [undefined]. *)
Definition get_root (v : Lookup) : option RootId :=
  match v with Own e => Some (root e) | _ => None end.

Definition get_wrapper (v : Lookup) : option Node :=
  match v with Own e => Some (wrapper e) | _ => None end.

(** [confirms[key]] *)
Definition read_confirms (key : string) : M Lookup :=
  fun w =>
    (Returned match confirms w !! key with
              | Some e => Own e
              | None => if Js.inherited key then Inherited else Undefined
              end, w).

(** [confirms[key] = entry] *)
Definition write_confirms (key : string) (entry : ConfirmationEntry) : M unit :=
  modify (with_confirms (fun c => <[key := entry]> c)).

(** [delete confirms[key]] *)
Definition delete_confirms (key : string) : M unit :=
  modify (with_confirms (fun c => delete key c)).

(** Running the function [cb]: the call is recorded, and it may throw. *)
Definition invoke (fault : option Error) (cb : CallbackId) : M unit :=
  fun w =>
    let w' := with_invoked (fun l => (l ++ [cb])%list) w in
    match fault with
    | Some e => (Thrown e, w')
    | None => (Returned tt, w')
    end.

(** [callbacks.mounted?.()], where [run] is what calling a function does. *)
Definition call_mounted_with (run : CallbackId -> M unit) : M unit :=
  fun w =>
    match mounted (callbacks w) with
    | None => (Returned tt, w)
    | Some cb => run cb w
    end.

Definition call_mounted (fault : option Error) : M unit :=
  call_mounted_with (invoke fault).

(** The calls [mount] and [unmount] make into the host, as whatever the
    host does for them: each may read and change the world, and throw. *)
Record MountCalls := {
  do_createElement : M Node;
  do_appendChild : Node -> Node -> M Node;
  do_createRoot : Node -> M RootId;
  do_render : RootId -> ReactElement -> M unit;
  do_callback : CallbackId -> M unit
}.

Record UnmountCalls := {
  do_root_unmount : RootId -> M unit;
  do_remove : Node -> M unit
}.

(** The host of this model: the primitives above, throwing as [h] says. *)
Definition standard_mount (h : MountHost) : MountCalls :=
  {| do_createElement := createElement (createElement_throws h);
     do_appendChild := appendChild (appendChild_throws h);
     do_createRoot := createRoot (createRoot_throws h);
     do_render := render (render_throws h);
     do_callback := invoke (mounted_throws h) |}.

Definition standard_unmount (h : UnmountHost) : UnmountCalls :=
  {| do_root_unmount := root_unmount (unmount_throws h);
     do_remove := remove (remove_throws h) |}.

Section Mounter.

(** The argument of [createDomTreeMounter]. *)
Variable defaultMountNode : option Node.

(** [(mountNode || defaultMountNode || document.body)] *)
Definition getParentNode (mountNode : option Node) : M (option Node) :=
  match mountNode with
  | Some n => ret (Some n)
  | None =>
      match defaultMountNode with
      | Some d => ret (Some d)
      | None =>
          fun w =>
            match document w with
            | Some doc => (Returned (body doc), w)
            | None => (Thrown (ReferenceError "document"), w)
            end
      end
  end.

(** [mount], over the host calls [H]; [rnd] is what [Math.random()]
    returns. *)
Definition mount_with (H : MountCalls) (rnd : Q) (C : Component) (props : Props)
    (mountNode : option Node) : M string :=
  let key := generateKey rnd in
  try_catch
    (let* parent := getParentNode mountNode in
     let* parent_obj := member parent "appendChild" in
     let* div := do_createElement H in
     let* wrapper := do_appendChild H parent_obj div in
     let* root := do_createRoot H wrapper in
     write_confirms key {| wrapper := wrapper; root := root |} ;;
     do_render H root (jsx C props) ;;
     call_mounted_with (do_callback H) ;;
     ret key)
    (fun error =>
       delete_confirms key ;;
       throw error).

(** [mount] in the host of this model. *)
Definition mount (h : MountHost) (C : Component) (props : Props)
    (mountNode : option Node) : M string :=
  mount_with (standard_mount h) (random h) C props mountNode.

(** [unmount], over the host calls [H]. *)
Definition unmount_with (H : UnmountCalls) (key : string) : M unit :=
  let* confirmation := read_confirms key in
  if negb (truthy confirmation) then ret tt
  else
    delete_confirms key ;;
    try_catch
      (let* r := member (get_root confirmation) "unmount" in
       do_root_unmount H r)
      (fun error => console_warn "react-confirm: Failed to unmount React root:" error) ;;
    try_catch
      (let* n := member (get_wrapper confirmation) "remove" in
       do_remove H n)
      (fun error => console_warn "react-confirm: Failed to remove DOM wrapper:" error).

(** [unmount] in the host of this model. *)
Definition unmount (h : UnmountHost) (key : string) : M unit :=
  unmount_with (standard_unmount h) key.

End Mounter.

(** The object [createDomTreeMounter] returns. *)
Module Mounter.
Record t := {
  mount : MountHost -> Component -> Props -> option Node -> M string;
  unmount : UnmountHost -> string -> M unit;
  options : gmap string string
}.
End Mounter.

(** [createDomTreeMounter(defaultMountNode)]: a new closure with
    [confirms = {}] and [callbacks = {}], and the mounter object. *)
Definition createDomTreeMounter (defaultMountNode : option Node) : M Mounter.t :=
  fun w =>
    (Returned {| Mounter.mount := mount defaultMountNode;
                 Mounter.unmount := unmount;
                 Mounter.options := ∅ |},
     {| confirms := ∅; callbacks := {| mounted := None |};
        document := document w; dom_parent := dom_parent w;
        next_node := next_node w; roots := roots w; next_root := next_root w;
        console := console w; invoked := invoked w |}).

(** ** Use of a mounter through its public interface *)

Inductive Call :=
| CallMount (h : MountHost) (C : Component) (props : Props) (mountNode : option Node)
| CallUnmount (h : UnmountHost) (key : string).

Definition call (m : Mounter.t) (c : Call) (w : World) : World :=
  match c with
  | CallMount h C props mountNode => snd (Mounter.mount m h C props mountNode w)
  | CallUnmount h key => snd (Mounter.unmount m h key w)
  end.

Definition exec (m : Mounter.t) (calls : list Call) (w : World) : World :=
  fold_left (fun w c => call m c w) calls w.

(** The worlds a mounter made with [defaultMountNode] can be in. *)
Definition reachable (defaultMountNode : option Node) (w : World) : Prop :=
  exists host m w0 calls,
    createDomTreeMounter defaultMountNode host = (Returned m, w0) /\
    w = exec m calls w0.

(** The integer [generateKey] renders. *)
Definition draw (h : MountHost) : Z :=
  Js.floor (random h * inject_Z (Js.shl 1 30)).

Definition draws (calls : list Call) : list Z :=
  omap (fun c => match c with
                 | CallMount h _ _ _ => Some (draw h)
                 | CallUnmount _ _ => None
                 end) calls.

(** The two release steps of [unmount], for a tracked entry. *)
Definition release_root (h : UnmountHost) (e : ConfirmationEntry) : M unit :=
  try_catch (root_unmount (unmount_throws h) (root e))
    (fun error => console_warn "react-confirm: Failed to unmount React root:" error).

Definition release_wrapper (h : UnmountHost) (e : ConfirmationEntry) : M unit :=
  try_catch (remove (remove_throws h) (wrapper e))
    (fun error => console_warn "react-confirm: Failed to remove DOM wrapper:" error).




(** A host in which each release call first calls back into the mounter
    with [unmount(key)] (a cleanup effect of the component during
    [root.unmount()], a disconnected-callback during [wrapper.remove()]) and
    then does its work. *)
Definition release_reentering (h during_root during_wrapper : UnmountHost)
    (key : string) : UnmountCalls :=
  {| do_root_unmount := fun r =>
       unmount during_root key ;; root_unmount (unmount_throws h) r;
     do_remove := fun n =>
       unmount during_wrapper key ;; remove (remove_throws h) n |}.

(** The world after the [catch] of a release step: the warning is logged
    when the step threw. *)
Definition logged (message : string) (o : Outcome unit) (w : World) : World :=
  match o with
  | Returned _ => w
  | Thrown error => with_console (fun log => log ++ [(message, error)]) w
  end.

(** The invariant of the registry: tracked keys are renderings of drawn
    integers, and the entries own pairwise distinct nodes and roots that
    the host has already allocated. *)
Record registry_ok (w : World) : Prop := {
  ok_keys : forall k e, confirms w !! k = Some e -> exists z, k = Js.toString16 z;
  ok_alloc : forall k e, confirms w !! k = Some e ->
             (wrapper e < next_node w)%nat /\ (root e < next_root w)%nat;
  ok_distinct : forall k1 k2 e1 e2, k1 <> k2 ->
             confirms w !! k1 = Some e1 -> confirms w !! k2 = Some e2 ->
             wrapper e1 <> wrapper e2 /\ root e1 <> root e2
}.

(** The world in which [mount] reaches [callbacks.mounted?.()]: the wrapper
    is attached under [parent], the root is bound to it and holds the
    element, and the entry is recorded under [key]. *)
Definition before_mounted (parent : Node) (key : string) (el : ReactElement)
    (w : World) : World :=
  let n := next_node w in
  let r := next_root w in
  {| confirms := <[key := {| wrapper := n; root := r |}]> (confirms w);
     callbacks := callbacks w; document := document w;
     dom_parent := <[n := parent]> (dom_parent w);
     next_node := S n;
     roots := <[r := {| container := n; rendered := Some el;
                        unmounted := false |}]> (roots w);
     next_root := S r; console := console w; invoked := invoked w |}.

(** Symbolic execution of the monad's combinators. *)
Ltac run_js :=
  cbv [bind try_catch ret throw modify member host_throws
       read_confirms write_confirms delete_confirms console_warn
       root_unmount remove appendChild createRoot
       release_root release_wrapper truthy get_root get_wrapper negb].

Ltac open_mount :=
  unfold mount, mount_with;
  cbv [standard_mount do_createElement do_appendChild do_createRoot do_render
       do_callback];
  fold call_mounted.

Ltac open_unmount :=
  unfold unmount, unmount_with;
  cbv [standard_unmount do_root_unmount do_remove].

Ltac open_world :=
  cbv [with_confirms with_dom with_next_node with_roots with_next_root
       with_console with_invoked];
  cbn [confirms callbacks document dom_parent next_node roots next_root
       console invoked fst snd].

(** Sample inputs. *)
Definition quiet_mount (r : Q) : MountHost :=
  {| random := r; createElement_throws := None; appendChild_throws := None;
     createRoot_throws := None; render_throws := None; mounted_throws := None |}.

Definition quiet_unmount : UnmountHost :=
  {| unmount_throws := None; remove_throws := None |}.

Definition page : World :=
  {| confirms := ∅; callbacks := {| mounted := None |};
     document := Some {| body := Some 0%nat |};
     dom_parent := ∅; next_node := 1%nat; roots := ∅; next_root := 0%nat;
     console := []; invoked := [] |}.

(** A page with one dialog mounted under the key ["2a"]: [Math.random()]
    returned [42 / 2^30]. *)
Definition lucky : Q := 42 # 1073741824.

Definition page1 : World :=
  snd (mount None (quiet_mount lucky) "Dialog" [("message", "Delete?")] None page).

(** A second dialog, mounted under ["2b"]. *)
Definition page2 : World :=
  snd (mount None (quiet_mount (43 # 1073741824)) "Dialog" [] None page1).

(** A host in which [createRoot] throws, and one in which [render] does. *)
Definition createRoot_fails : MountHost :=
  {| random := lucky; createElement_throws := None; appendChild_throws := None;
     createRoot_throws := Some (HostError 7); render_throws := None;
     mounted_throws := None |}.

Definition render_fails : MountHost :=
  {| random := lucky; createElement_throws := None; appendChild_throws := None;
     createRoot_throws := None; render_throws := Some (HostError 8);
     mounted_throws := None |}.

(** The world after making a mounter on [host] and then the [calls]. *)
Definition started (d : option Node) (host : World) (calls : list Call) : World :=
  match createDomTreeMounter d host with
  | (Returned m, w0) => exec m calls w0
  | (Thrown _, w0) => w0
  end.

(** Every [mount] of the sequence draws a key the registry does not track
    at that moment. *)
Definition keys_fresh_at_creation (d : option Node) (host : World)
    (calls : list Call) : Prop :=
  forall pre h C props mountNode post,
    calls = pre ++ CallMount h C props mountNode :: post ->
    confirms (started d host pre) !! generateKey (random h) = None.

(** A key removed by an [unmount] of the sequence is not tracked at any
    later point of the sequence. *)
Definition never_resurrected (d : option Node) (host : World)
    (calls : list Call) : Prop :=
  forall pre h key mid post,
    calls = pre ++ CallUnmount h key :: mid ++ post ->
    is_Some (confirms (started d host pre) !! key) ->
    confirms (started d host (pre ++ CallUnmount h key :: mid)) !! key = None.

(** A host in which both release steps throw. *)
Definition failing_unmount : UnmountHost :=
  {| unmount_throws := Some (HostError 1); remove_throws := Some (HostError 2) |}.

(** An entry whose root is in place: it was created on the entry's
    wrapper, an element has been handed to it, and it has not been
    unmounted. *)
Definition entry_live (w : World) (e : ConfirmationEntry) : Prop :=
  exists el, roots w !! root e
             = Some {| container := wrapper e; rendered := Some el;
                       unmounted := false |}.


(** A document whose body has not been parsed yet. *)
Definition headless : World :=
  {| confirms := ∅; callbacks := {| mounted := None |};
     document := Some {| body := None |};
     dom_parent := ∅; next_node := 0%nat; roots := ∅; next_root := 0%nat;
     console := []; invoked := [] |}.

(** The digits [toString(16)] writes. *)
Definition lower_hex (c : ascii) : bool :=
  existsb (Ascii.eqb c) (list_ascii_of_string "0123456789abcdef").

Fixpoint all_lower_hex (s : string) : bool :=
  match s with
  | EmptyString => true
  | String c s' => lower_hex c && all_lower_hex s'
  end.

(** * Properties *)

(** ** Keys *)

Lemma of_pos_head :
  forall (p : positive) (rest : string),
    exists c s, HexString.Raw.of_pos p rest = String c s /\ c <> "-"%char.
Proof.
  fix of_pos_head 1. intros p rest.
  do 4 try destruct p as [p|p|];
    try (cbn; eexists _, _; split; [reflexivity | discriminate]);
    cbn; apply of_pos_head.
Qed.

Lemma parse16_toString16 (z : Z) : Js.parse16 (Js.toString16 z) = z.
Proof.
  destruct z as [|p|p]; [reflexivity | |].
  - unfold Js.toString16.
    destruct (of_pos_head p "") as (c & s & Heq & Hc).
    assert (Js.parse16 (HexString.Raw.of_pos p "")
            = Z.of_N (HexString.Raw.to_N (HexString.Raw.of_pos p "") 0%N)) as ->.
    { rewrite Heq. unfold Js.parse16.
      destruct c as [[] [] [] [] [] [] [] []]; try reflexivity.
      exfalso. apply Hc. reflexivity. }
    rewrite HexString.Raw.to_N_of_pos. reflexivity.
  - unfold Js.toString16, Js.parse16.
    rewrite HexString.Raw.to_N_of_pos. reflexivity.
Qed.

Lemma toString16_inj (a b : Z) : Js.toString16 a = Js.toString16 b -> a = b.
Proof.
  intros H. rewrite <- (parse16_toString16 a), <- (parse16_toString16 b).
  now rewrite H.
Qed.

Lemma toString16_not_inherited (z : Z) : Js.inherited (Js.toString16 z) = false.
Proof.
  destruct (Js.inherited (Js.toString16 z)) eqn:Hin; [exfalso | reflexivity].
  assert (Hfix : Js.toString16 (Js.parse16 (Js.toString16 z)) = Js.toString16 z)
    by now rewrite parse16_toString16.
  unfold Js.inherited, Js.object_prototype_names in Hin. cbn [existsb] in Hin.
  repeat (apply orb_prop in Hin as [Hin | Hin];
          [apply String.eqb_eq in Hin; rewrite Hin in Hfix;
           vm_compute in Hfix; discriminate |]).
  discriminate.
Qed.

Lemma generateKey_draw (h : MountHost) : generateKey (random h) = Js.toString16 (draw h).
Proof. reflexivity. Qed.

Lemma with_confirms_id (w : World) (f : gmap string ConfirmationEntry -> _) :
  f (confirms w) = confirms w -> with_confirms f w = w.
Proof. destruct w; unfold with_confirms; cbn; intros ->; reflexivity. Qed.

(** ** [unmount] *)

Section Unmount.

Variables (h : UnmountHost) (key : string) (w : World).

Lemma unmount_unknown :
  confirms w !! key = None -> Js.inherited key = false ->
  unmount h key w = (Returned tt, w).
Proof.
  intros Hnone Hproto. open_unmount. run_js.
  rewrite Hnone, Hproto. reflexivity.
Qed.

Lemma unmount_tracked (e : ConfirmationEntry) :
  confirms w !! key = Some e ->
  unmount h key w
  = (delete_confirms key ;; release_root h e ;; release_wrapper h e) w.
Proof.
  intros Hsome. open_unmount. run_js. rewrite Hsome. cbn.
  destruct (unmount_throws h), (remove_throws h); reflexivity.
Qed.

Lemma unmount_returns : fst (unmount h key w) = Returned tt.
Proof.
  open_unmount. run_js.
  destruct (confirms w !! key); [| destruct (Js.inherited key)]; cbn;
    destruct (unmount_throws h), (remove_throws h); reflexivity.
Qed.

Lemma unmount_confirms : confirms (snd (unmount h key w)) = delete key (confirms w).
Proof.
  open_unmount. run_js.
  destruct (confirms w !! key) eqn:Hk; [| destruct (Js.inherited key)]; cbn;
    try (destruct (unmount_throws h), (remove_throws h); reflexivity).
  symmetry. now apply delete_id.
Qed.

Lemma unmount_callbacks :
  callbacks (snd (unmount h key w)) = callbacks w /\
  invoked (snd (unmount h key w)) = invoked w /\
  next_node (snd (unmount h key w)) = next_node w /\
  next_root (snd (unmount h key w)) = next_root w /\
  document (snd (unmount h key w)) = document w.
Proof.
  open_unmount. run_js.
  destruct (confirms w !! key); [| destruct (Js.inherited key)]; cbn;
    destruct (unmount_throws h), (remove_throws h); cbn; auto.
Qed.

End Unmount.

(** ** [mount] *)

Section Mount.

Variables (d : option Node) (h : MountHost) (C : Component) (props : Props)
          (mountNode : option Node) (w : World).

Let key := generateKey (random h).

Lemma getParentNode_world (o : Outcome (option Node)) (w' : World) :
  getParentNode d mountNode w = (o, w') -> w' = w.
Proof.
  unfold getParentNode, ret.
  destruct mountNode, d, (document w); intros [= <- <-]; reflexivity.
Qed.

(** Walk through the steps of [mount] in order; [fin] closes the branch
    in which a step throws, and the goal that is left is the one in which
    [callbacks.mounted?.()] has been reached. *)
Ltac mount_walk fin :=
  open_mount; unfold createElement, render; run_js;
  let Hp := fresh "Hp" in
  destruct (getParentNode d mountNode w) as [[[?parent|]|?] ?w] eqn:Hp;
  pose proof (getParentNode_world _ _ Hp) as ->;
  [ | solve [fin] | solve [fin] ];
  destruct (document w) eqn:?; [ | solve [fin] ];
  destruct (createElement_throws h); [ solve [fin] | ];
  destruct (appendChild_throws h); [ solve [fin] | ];
  destruct (createRoot_throws h); [ solve [fin] | ];
  destruct (render_throws h); [ solve [fin] | ];
  open_world; rewrite lookup_insert_eq; cbn [unmounted container];
  unfold call_mounted, call_mounted_with, invoke; open_world.

Lemma mount_returned (k : string) (w' : World) :
  mount d h C props mountNode w = (Returned k, w') ->
  exists parent,
    getParentNode d mountNode w = (Returned (Some parent), w) /\
    k = key /\
    call_mounted (mounted_throws h) (before_mounted parent key (jsx C props) w)
    = (Returned tt, w').
Proof.
  mount_walk ltac:(intros Heq; discriminate Heq).
  unfold before_mounted, call_mounted, call_mounted_with, invoke. open_world. rewrite insert_insert_eq.
  destruct (mounted (callbacks w)); [destruct (mounted_throws h) |];
    intros Heq; inversion Heq; subst; eauto.
Qed.

Lemma mount_thrown (e : Error) (w' : World) :
  mount d h C props mountNode w = (Thrown e, w') ->
  confirms w' = delete key (confirms w) /\
  (next_node w <= next_node w')%nat /\ (next_root w <= next_root w')%nat.
Proof.
  mount_walk ltac:(intros Heq; inversion Heq; subst; open_world;
                   rewrite ?delete_insert_eq; repeat split; lia).
  destruct (mounted (callbacks w)); [destruct (mounted_throws h) |];
    intros Heq; inversion Heq; subst; open_world;
    rewrite ?delete_insert_eq; repeat split; lia.
Qed.

Lemma mount_closure :
  callbacks (snd (mount d h C props mountNode w)) = callbacks w /\
  document (snd (mount d h C props mountNode w)) = document w /\
  (mounted (callbacks w) = None ->
   invoked (snd (mount d h C props mountNode w)) = invoked w).
Proof.
  mount_walk ltac:(open_world; repeat split; intros; auto).
  destruct (mounted (callbacks w)); [destruct (mounted_throws h) |];
    open_world; repeat split; intros; try discriminate; auto.
Qed.

End Mount.

(** The steps of [mount] in order; [fin] closes each branch in which a step
    throws, and the goal left is the one that reached the callback. *)
Ltac walk_mount d h mountNode w fin :=
  open_mount; unfold createElement, render; run_js;
  let Hp := fresh "Hp" in
  destruct (getParentNode d mountNode w) as [[[?parent|]|?] ?w] eqn:Hp;
  pose proof (getParentNode_world _ _ _ _ _ Hp) as ->;
  [ | solve [fin] | solve [fin] ];
  destruct (document w) eqn:?; [ | solve [fin] ];
  destruct (createElement_throws h) eqn:?; [ solve [fin] | ];
  destruct (appendChild_throws h) eqn:?; [ solve [fin] | ];
  destruct (createRoot_throws h) eqn:?; [ solve [fin] | ];
  destruct (render_throws h) eqn:?; [ solve [fin] | ];
  open_world; rewrite lookup_insert_eq; cbn [unmounted container];
  unfold call_mounted, call_mounted_with, invoke; open_world.

Lemma call_mounted_frame (fault : option Error) (w w' : World) (o : Outcome unit) :
  call_mounted fault w = (o, w') ->
  confirms w' = confirms w /\ dom_parent w' = dom_parent w /\
  roots w' = roots w /\ next_node w' = next_node w /\
  next_root w' = next_root w /\ console w' = console w /\
  (mounted (callbacks w) = None -> w' = w).
Proof.
  unfold call_mounted, call_mounted_with, invoke.
  destruct (mounted (callbacks w)); [destruct fault |];
    intros Heq; inversion Heq; subst; open_world; repeat split;
    intros; discriminate.
Qed.

(** ** The registry invariant *)

Lemma registry_ok_mount d h C props mountNode w :
  registry_ok w -> registry_ok (snd (mount d h C props mountNode w)).
Proof.
  intros [Hkeys Halloc Hdist].
  destruct (mount d h C props mountNode w) as [[k|e] w'] eqn:Hm; cbn [snd].
  - apply mount_returned in Hm as (parent & _ & -> & Hcb).
    apply call_mounted_frame in Hcb as (Hc & _ & _ & Hn & Hr & _).
    unfold before_mounted in *. cbn [confirms next_node next_root] in *.
    split; rewrite Hc, ?Hn, ?Hr.
    + intros k e. rewrite lookup_insert. case_decide as Hk.
      * intros _. subst k. eexists. apply generateKey_draw.
      * apply Hkeys.
    + intros k e. rewrite lookup_insert. case_decide.
      * intros [= <-]. cbn. lia.
      * intros Hl. apply Halloc in Hl. lia.
    + intros k1 k2 e1 e2 Hne. rewrite !lookup_insert.
      repeat case_decide; subst; try congruence.
      * intros [= <-] Hl. apply Halloc in Hl. cbn. lia.
      * intros Hl [= <-]. apply Halloc in Hl. cbn. lia.
      * now apply Hdist.
  - apply mount_thrown in Hm as (Hc & Hn & Hr).
    split; rewrite Hc.
    + intros k e0 Hl. apply lookup_delete_Some in Hl as [_ Hl]. eauto.
    + intros k e0 Hl. apply lookup_delete_Some in Hl as [_ Hl].
      apply Halloc in Hl. lia.
    + intros k1 k2 e1 e2 Hne H1 H2.
      apply lookup_delete_Some in H1 as [_ H1].
      apply lookup_delete_Some in H2 as [_ H2]. eauto.
Qed.

Lemma registry_ok_unmount h key w :
  registry_ok w -> registry_ok (snd (unmount h key w)).
Proof.
  intros [Hkeys Halloc Hdist].
  destruct (unmount_callbacks h key w) as (_ & _ & Hn & Hr & _).
  split; rewrite unmount_confirms, ?Hn, ?Hr.
  - intros k e Hl. apply lookup_delete_Some in Hl as [_ Hl]. eauto.
  - intros k e Hl. apply lookup_delete_Some in Hl as [_ Hl]. eauto.
  - intros k1 k2 e1 e2 Hne H1 H2.
    apply lookup_delete_Some in H1 as [_ H1].
    apply lookup_delete_Some in H2 as [_ H2]. eauto.
Qed.

Lemma exec_snoc m calls c w : exec m (calls ++ [c]) w = call m c (exec m calls w).
Proof. unfold exec. now rewrite fold_left_app. Qed.

Lemma exec_app m l1 l2 w : exec m (l1 ++ l2) w = exec m l2 (exec m l1 w).
Proof. unfold exec. now rewrite fold_left_app. Qed.

Lemma createDomTreeMounter_inv d host m w0 :
  createDomTreeMounter d host = (Returned m, w0) ->
  Mounter.mount m = mount d /\ Mounter.unmount m = unmount /\
  Mounter.options m = ∅ /\
  confirms w0 = ∅ /\ callbacks w0 = {| mounted := None |} /\
  invoked w0 = invoked host.
Proof. unfold createDomTreeMounter. intros [= <- <-]. repeat split. Qed.

Lemma reachable_invariant d w :
  reachable d w -> registry_ok w /\ mounted (callbacks w) = None.
Proof.
  intros (host & m & w0 & calls & Hnew & ->).
  apply createDomTreeMounter_inv in Hnew as (Hm & Hu & _ & Hc & Hcb & _).
  induction calls as [|c calls IH] using rev_ind.
  - cbn. split; [| now rewrite Hcb].
    split; rewrite Hc;
      [ intros k e H | intros k e H | intros k1 k2 e1 e2 _ H _ ];
      rewrite lookup_empty in H; discriminate.
  - rewrite exec_snoc. destruct IH as [Hok Hnone].
    destruct c as [h C props mn | h key]; cbn [call]; rewrite ?Hm, ?Hu.
    + split; [now apply registry_ok_mount |].
      destruct (mount_closure d h C props mn (exec m calls w0)) as (-> & _).
      exact Hnone.
    + split; [now apply registry_ok_unmount |].
      destruct (unmount_callbacks h key (exec m calls w0)) as (-> & _).
      exact Hnone.
Qed.

Lemma reachable_call d w c m host w0 :
  createDomTreeMounter d host = (Returned m, w0) ->
  reachable d w -> reachable d (call m c w).
Proof.
  intros Hnew (host' & m' & w0' & calls & Hnew' & ->).
  exists host', m', w0', (calls ++ [c]). split; [assumption |].
  rewrite exec_snoc. f_equal.
  unfold createDomTreeMounter in *. congruence.
Qed.

Lemma page1_reachable : reachable None page1.
Proof.
  exists page, {| Mounter.mount := mount None; Mounter.unmount := unmount;
                  Mounter.options := ∅ |}, page,
    [CallMount (quiet_mount lucky) "Dialog" [("message", "Delete?")] None].
  split; reflexivity.
Defined.

(** * The claims *)

(** ** C7: resolution of the target container *)

(** The container [getParentNode] chooses. *)
Lemma getParentNode_chosen (d mountNode : option Node) (w : World) :
  getParentNode d mountNode w
  = match mountNode, d, document w with
    | Some n, _, _ => (Returned (Some n), w)
    | None, Some dn, _ => (Returned (Some dn), w)
    | None, None, Some doc => (Returned (body doc), w)
    | None, None, None => (Thrown (ReferenceError "document"), w)
    end.
Proof. unfold getParentNode, ret. destruct mountNode, d; reflexivity. Qed.

(** Where the node created by a [mount] hangs afterwards. *)
Lemma mount_attaches d h C props mountNode w :
  dom_parent (snd (mount d h C props mountNode w)) !! next_node w
  = match fst (getParentNode d mountNode w), document w,
          createElement_throws h, appendChild_throws h with
    | Returned (Some parent), Some _, None, None => Some parent
    | _, _, _, _ => dom_parent w !! next_node w
    end.
Proof.
  walk_mount d h mountNode w
    ltac:(open_world; rewrite ?lookup_insert_eq; reflexivity).
  destruct (mounted (callbacks w)); [destruct (mounted_throws h) |];
    open_world; now rewrite lookup_insert_eq.
Qed.

(** C7. For every [mount] call, [getParentNode] returns the [mountNode]
    argument of the call when there is one, otherwise the [defaultMountNode]
    given to [createDomTreeMounter] when there is one, otherwise
    [document.body]; the node the call creates is appended under that
    container and nowhere else (it stays detached when the call throws before
    or in [appendChild]); and when [mount] returns, the wrapper recorded under
    the returned key hangs under that container. *)
Theorem C7_target_container_resolution
    (d : option Node) (h : MountHost) (C : Component) (props : Props)
    (mountNode : option Node) (w : World) :
  let chosen :=
    match mountNode, d with
    | Some n, _ => Some n
    | None, Some dn => Some dn
    | None, None => match document w with
                    | Some doc => body doc
                    | None => None
                    end
    end in
  getParentNode d mountNode w
  = match mountNode, d, document w with
    | None, None, None => (Thrown (ReferenceError "document"), w)
    | _, _, _ => (Returned chosen, w)
    end /\
  dom_parent (snd (mount d h C props mountNode w)) !! next_node w
  = match chosen, document w, createElement_throws h, appendChild_throws h with
    | Some parent, Some _, None, None => Some parent
    | _, _, _, _ => dom_parent w !! next_node w
    end /\
  forall k w',
    mount d h C props mountNode w = (Returned k, w') ->
    exists parent e,
      chosen = Some parent /\
      getParentNode d mountNode w = (Returned (Some parent), w) /\
      confirms w' !! k = Some e /\
      dom_parent w' !! wrapper e = Some parent.
Proof.
  intros chosen.
  assert (Hget : getParentNode d mountNode w
                 = match mountNode, d, document w with
                   | None, None, None => (Thrown (ReferenceError "document"), w)
                   | _, _, _ => (Returned chosen, w)
                   end).
  { rewrite getParentNode_chosen. subst chosen.
    destruct mountNode, d, (document w); reflexivity. }
  split; [exact Hget |]. split.
  - rewrite mount_attaches, Hget. subst chosen.
    destruct mountNode, d, (document w) as [[[b|]]|]; reflexivity.
  - intros k w' Hmount.
    apply mount_returned in Hmount as (parent & Hp & -> & Hcb).
    apply call_mounted_frame in Hcb as (Hc & Hd & _).
    exists parent, {| wrapper := next_node w; root := next_root w |}.
    rewrite Hc, Hd. unfold before_mounted. cbn [confirms dom_parent wrapper].
    rewrite !lookup_insert_eq. repeat split; try assumption.
    rewrite Hget in Hp. subst chosen.
    destruct mountNode, d, (document w); congruence.
Qed.

(** An explicit [mountNode] wins over the default and the body; the default
    wins over the body; the body is the last resort. *)
Lemma C7_target_container_resolution_witness :
  getParentNode (Some 5%nat) (Some 7%nat) page = (Returned (Some 7%nat), page) /\
  getParentNode (Some 5%nat) None page = (Returned (Some 5%nat), page) /\
  getParentNode None None page = (Returned (Some 0%nat), page) /\
  dom_parent (snd (mount (Some 5%nat) (quiet_mount lucky) "Dialog" [] (Some 7%nat) page))
    !! 1%nat = Some 7%nat /\
  dom_parent (snd (mount (Some 5%nat) render_fails "Dialog" [] None page))
    !! 1%nat = Some 5%nat /\
  exists parent e,
    Some 0%nat = Some parent /\
    getParentNode None None page = (Returned (Some parent), page) /\
    confirms (snd (mount None (quiet_mount lucky) "Dialog" [] None page)) !! "2a"
    = Some e /\
    dom_parent (snd (mount None (quiet_mount lucky) "Dialog" [] None page))
      !! wrapper e = Some parent.
Proof.
  split; [exact (proj1 (C7_target_container_resolution (Some 5%nat)
                          (quiet_mount lucky) "Dialog" [] (Some 7%nat) page)) |].
  split; [exact (proj1 (C7_target_container_resolution (Some 5%nat)
                          (quiet_mount lucky) "Dialog" [] None page)) |].
  split; [exact (proj1 (C7_target_container_resolution None
                          (quiet_mount lucky) "Dialog" [] None page)) |].
  split; [exact (proj1 (proj2 (C7_target_container_resolution (Some 5%nat)
                          (quiet_mount lucky) "Dialog" [] (Some 7%nat) page))) |].
  split; [exact (proj1 (proj2 (C7_target_container_resolution (Some 5%nat)
                          render_fails "Dialog" [] None page))) |].
  assert (H : mount None (quiet_mount lucky) "Dialog" [] None page
              = (Returned "2a",
                 snd (mount None (quiet_mount lucky) "Dialog" [] None page)))
    by (vm_compute; reflexivity).
  exact (proj2 (proj2 (C7_target_container_resolution None (quiet_mount lucky)
                         "Dialog" [] None page)) "2a" _ H).
Defined.

(** ** C9: what a successful [mount] has done, and in which order *)







(** ** C10: the [mounted] callback cannot be set *)

Lemma exec_callbacks d m w0 calls :
  Mounter.mount m = mount d -> Mounter.unmount m = unmount ->
  mounted (callbacks w0) = None ->
  mounted (callbacks (exec m calls w0)) = None /\
  invoked (exec m calls w0) = invoked w0.
Proof.
  intros Hm Hu Hnone.
  induction calls as [|c calls [IHc IHi]] using rev_ind; [now split |].
  rewrite exec_snoc.
  destruct c as [h C props mn | h key]; cbn [call]; rewrite ?Hm, ?Hu.
  - destruct (mount_closure d h C props mn (exec m calls w0)) as (-> & _ & Hi).
    split; [exact IHc |]. now rewrite Hi.
  - destruct (unmount_callbacks h key (exec m calls w0)) as (-> & -> & _).
    now split.
Qed.

(** C10. [createDomTreeMounter] returns an object with exactly [mount],
    [unmount] and an empty [options]; the [callbacks] record stays in the
    closure, starts without a [mounted] member, and no sequence of calls
    through the returned object gives it one, so [mount] never invokes a
    [mounted] callback. *)
Theorem C10_mounted_callback_unreachable
    (d : option Node) (host : World) (calls : list Call) :
  exists m w0,
    createDomTreeMounter d host = (Returned m, w0) /\
    Mounter.options m = ∅ /\
    mounted (callbacks (exec m calls w0)) = None /\
    invoked (exec m calls w0) = invoked host.
Proof.
  destruct (createDomTreeMounter d host) as [[m|e] w0] eqn:Hnew;
    [| discriminate Hnew].
  exists m, w0. split; [reflexivity |].
  apply createDomTreeMounter_inv in Hnew as (Hm & Hu & Ho & _ & Hcb & Hi).
  split; [exact Ho |].
  destruct (exec_callbacks d m w0 calls Hm Hu) as [H1 H2];
    [now rewrite Hcb |].
  split; [exact H1 | congruence].
Qed.

(** ** C4: teardown never throws *)

Lemma release_root_spec h e w :
  release_root h e w
  = (Returned tt,
     match unmount_throws h with
     | Some err =>
         with_console
           (fun log => log ++ [("react-confirm: Failed to unmount React root:", err)]) w
     | None =>
         with_roots (fun m =>
           match m !! root e with
           | Some rs => <[root e := {| container := container rs; rendered := None;
                                       unmounted := true |}]> m
           | None => m
           end) w
     end).
Proof. run_js. destruct (unmount_throws h); reflexivity. Qed.

Lemma release_wrapper_spec h e w :
  release_wrapper h e w
  = (Returned tt,
     match remove_throws h with
     | Some err =>
         with_console
           (fun log => log ++ [("react-confirm: Failed to remove DOM wrapper:", err)]) w
     | None => with_dom (fun dm => delete (wrapper e) dm) w
     end).
Proof. run_js. destruct (remove_throws h); reflexivity. Qed.

(** The warnings a teardown in host [h] writes. *)
Lemma unmount_tracked_world h key w e :
  confirms w !! key = Some e ->
  unmount h key w
  = (Returned tt,
     snd (release_wrapper h e (snd (release_root h e (snd (delete_confirms key w)))))).
Proof.
  intros Hk. rewrite (unmount_tracked h key w e Hk).
  unfold bind. cbn [delete_confirms modify snd].
  repeat (rewrite release_root_spec || rewrite release_wrapper_spec).
  reflexivity.
Qed.

Lemma teardown_effects h key w e :
  confirms w !! key = Some e ->
  exists w',
    unmount h key w = (Returned tt, w') /\
    console w'
    = console w
      ++ match unmount_throws h with
         | Some err => [("react-confirm: Failed to unmount React root:", err)]
         | None => []
         end
      ++ match remove_throws h with
         | Some err => [("react-confirm: Failed to remove DOM wrapper:", err)]
         | None => []
         end /\
    (remove_throws h = None -> dom_parent w' !! wrapper e = None) /\
    (unmount_throws h = None -> forall rs,
       roots w !! root e = Some rs ->
       roots w' !! root e
       = Some {| container := container rs; rendered := None; unmounted := true |}).
Proof.
  intros Htracked.
  eexists. split; [apply (unmount_tracked_world h key w e Htracked) |].
  rewrite release_wrapper_spec, release_root_spec.
  cbn [snd delete_confirms modify].
  destruct (unmount_throws h) as [e1|], (remove_throws h) as [e2|]; open_world.
  - rewrite <- app_assoc. repeat split; intros; discriminate.
  - rewrite app_nil_r, lookup_delete_eq. repeat split; intros; discriminate.
  - repeat split; try (intros; discriminate).
    intros _ rs ->. now rewrite lookup_insert_eq.
  - rewrite app_nil_r, lookup_delete_eq. repeat split.
    intros _ rs ->. now rewrite lookup_insert_eq.
Qed.

(** C4. [unmount] returns normally for every key and in every host.  For a
    tracked key: when [root.unmount()] throws, the error is logged with
    [console.warn] and the wrapper is removed all the same; when
    [wrapper.remove()] throws, that error is logged too; nothing else is
    logged. *)
Theorem C4_teardown_never_throws
    (h : UnmountHost) (key : string) (w : World) (e : ConfirmationEntry)
    (Htracked : confirms w !! key = Some e) :
  (forall h' key' w0, fst (unmount h' key' w0) = Returned tt) /\
  exists w',
    unmount h key w = (Returned tt, w') /\
    console w'
    = console w
      ++ match unmount_throws h with
         | Some err => [("react-confirm: Failed to unmount React root:", err)]
         | None => []
         end
      ++ match remove_throws h with
         | Some err => [("react-confirm: Failed to remove DOM wrapper:", err)]
         | None => []
         end /\
    (remove_throws h = None -> dom_parent w' !! wrapper e = None) /\
    (unmount_throws h = None -> forall rs,
       roots w !! root e = Some rs ->
       roots w' !! root e
       = Some {| container := container rs; rendered := None; unmounted := true |}).
Proof.
  split; [intros; apply unmount_returns |].
  now apply teardown_effects.
Qed.

Lemma C4_teardown_never_throws_witness :
  confirms page1 !! "2a" = Some {| wrapper := 1%nat; root := 0%nat |} /\
  fst (unmount failing_unmount "2a" page1) = Returned tt /\
  console (snd (unmount failing_unmount "2a" page1))
  = [("react-confirm: Failed to unmount React root:", HostError 1);
     ("react-confirm: Failed to remove DOM wrapper:", HostError 2)].
Proof.
  assert (H : confirms page1 !! "2a" = Some {| wrapper := 1%nat; root := 0%nat |})
    by (vm_compute; reflexivity).
  split; [exact H |].
  destruct (C4_teardown_never_throws failing_unmount "2a" page1 _ H)
    as (_ & w' & Hrun & Hlog & _).
  rewrite Hrun. split; [reflexivity | exact Hlog].
Defined.

(** ** C5: the entry leaves the registry before anything is released *)

Lemma tracked_not_inherited d w key e :
  reachable d w -> confirms w !! key = Some e -> Js.inherited key = false.
Proof.
  intros Hr Hk. apply reachable_invariant in Hr as [[Hkeys _ _] _].
  destruct (Hkeys key e Hk) as [z ->]. apply toString16_not_inherited.
Qed.

Lemma release_root_confirms h e w :
  confirms (snd (release_root h e w)) = confirms w.
Proof. rewrite release_root_spec. destruct (unmount_throws h); reflexivity. Qed.

Lemma release_wrapper_confirms h e w :
  confirms (snd (release_wrapper h e w)) = confirms w.
Proof. rewrite release_wrapper_spec. destruct (remove_throws h); reflexivity. Qed.

(** [unmount] of a tracked key, for any host: the entry is deleted, then
    the root is released, then the wrapper. *)
Lemma unmount_with_tracked H key w e :
  confirms w !! key = Some e ->
  unmount_with H key w
  = (delete_confirms key ;;
     try_catch (do_root_unmount H (root e))
       (fun error => console_warn "react-confirm: Failed to unmount React root:" error) ;;
     try_catch (do_remove H (wrapper e))
       (fun error => console_warn "react-confirm: Failed to remove DOM wrapper:" error)) w.
Proof.
  intros Hk. unfold unmount_with. run_js. rewrite Hk. reflexivity.
Qed.

Lemma unmount_with_steps H key w e :
  confirms w !! key = Some e ->
  exists o1 w2 o2 w3,
    do_root_unmount H (root e) (with_confirms (fun c => delete key c) w) = (o1, w2) /\
    do_remove H (wrapper e)
      (logged "react-confirm: Failed to unmount React root:" o1 w2) = (o2, w3) /\
    unmount_with H key w
    = (Returned tt, logged "react-confirm: Failed to remove DOM wrapper:" o2 w3).
Proof.
  intros Hk. rewrite (unmount_with_tracked H key w e Hk). run_js.
  destruct (do_root_unmount H (root e) _) as [o1 w2] eqn:H1.
  destruct (do_remove H (wrapper e)
              (logged "react-confirm: Failed to unmount React root:" o1 w2))
    as [o2 w3] eqn:H2.
  exists o1, w2, o2, w3. split; [reflexivity |]. split; [exact H2 |].
  destruct o1 as [[]|e1]; cbn [logged] in H2; rewrite H2;
    destruct o2 as [[]|e2]; reflexivity.
Qed.

Lemma reentered_unmount_is_idle {A} (h1 : UnmountHost) (key : string)
    (m : M A) (w : World) :
  confirms w !! key = None -> Js.inherited key = false ->
  (unmount h1 key ;; m) w = m w.
Proof.
  intros Hnone Hproto. unfold bind.
  now rewrite (unmount_unknown h1 key w Hnone Hproto).
Qed.

Lemma root_unmount_confirms fault r w o w' :
  root_unmount fault r w = (o, w') -> confirms w' = confirms w.
Proof.
  unfold root_unmount. run_js.
  destruct fault; intros Heq; inversion Heq; reflexivity.
Qed.

Lemma logged_confirms message o w : confirms (logged message o w) = confirms w.
Proof. destruct o; reflexivity. Qed.

(** A release call that first re-enters [unmount] with the same key does
    what the plain release call does: the re-entrant [unmount] finds no
    entry. *)
Lemma unmount_reentered h h1 h2 key w e :
  Js.inherited key = false ->
  confirms w !! key = Some e ->
  unmount_with (release_reentering h h1 h2 key) key w = unmount h key w.
Proof.
  intros Hproto Hk. unfold unmount.
  destruct (unmount_with_steps (release_reentering h h1 h2 key) key w e Hk)
    as (o1 & v2 & o2 & v3 & E1 & E2 & ->).
  destruct (unmount_with_steps (standard_unmount h) key w e Hk)
    as (o1' & v2' & o2' & v3' & E1' & E2' & ->).
  cbv [release_reentering standard_unmount do_root_unmount do_remove] in *.
  rewrite reentered_unmount_is_idle in E1;
    [| apply lookup_delete_eq | exact Hproto].
  rewrite E1 in E1'. injection E1' as <- <-.
  rewrite reentered_unmount_is_idle in E2; [| | exact Hproto].
  - rewrite E2 in E2'. now injection E2' as <- <-.
  - rewrite logged_confirms, (root_unmount_confirms _ _ _ _ _ E1).
    apply lookup_delete_eq.
Qed.

(** C5. For a tracked key, [unmount] deletes the entry before it makes any
    release call: whatever the host does in [root.unmount()], that call
    starts in the world without the entry, and [wrapper.remove()] starts in
    the world [root.unmount()] left (with its warning when it threw).  So
    the registry has no entry for the key while the dialog is torn down and
    afterwards; an [unmount] of the same key in any of these worlds returns
    at once and changes nothing; and release calls that re-enter
    [unmount(key)] release nothing twice: the outcome is that of the plain
    [unmount]. *)
Theorem C5_entry_removed_before_teardown
    (d : option Node) (h : UnmountHost) (key : string) (w : World)
    (e : ConfirmationEntry)
    (Hreach : reachable d w) (Htracked : confirms w !! key = Some e) :
  let w1 := snd (delete_confirms key w) in
  let w2 := snd (release_root h e w1) in
  let w3 := snd (release_wrapper h e w2) in
  (unmount h key w = (Returned tt, w3) /\
   confirms w1 !! key = None /\
   confirms w2 !! key = None /\
   confirms w3 !! key = None /\
   forall h', unmount h' key w1 = (Returned tt, w1) /\
              unmount h' key w2 = (Returned tt, w2) /\
              unmount h' key w3 = (Returned tt, w3)) /\
  (* in any host, the release calls start after the deletion *)
  (forall H : UnmountCalls,
     exists o1 v2 o2 v3,
       do_root_unmount H (root e) w1 = (o1, v2) /\
       do_remove H (wrapper e)
         (logged "react-confirm: Failed to unmount React root:" o1 v2) = (o2, v3) /\
       unmount_with H key w
       = (Returned tt, logged "react-confirm: Failed to remove DOM wrapper:" o2 v3)) /\
  (* re-entrant unmounts of the same key destroy nothing twice *)
  (forall during_root during_wrapper : UnmountHost,
     unmount_with (release_reentering h during_root during_wrapper key) key w
     = unmount h key w).
Proof.
  intros w1 w2 w3.
  pose proof (tracked_not_inherited d w key e Hreach Htracked) as Hproto.
  assert (H1 : confirms w1 !! key = None) by apply lookup_delete_eq.
  assert (H2 : confirms w2 !! key = None)
    by (subst w2; now rewrite release_root_confirms).
  assert (H3 : confirms w3 !! key = None)
    by (subst w3; now rewrite release_wrapper_confirms).
  split; [| split].
  - split; [apply (unmount_tracked_world h key w e Htracked) |].
    repeat split; try assumption; now apply unmount_unknown.
  - intros H. exact (unmount_with_steps H key w e Htracked).
  - intros h1 h2. now apply unmount_reentered with (e := e).
Qed.

Lemma C5_entry_removed_before_teardown_witness :
  reachable None page1 /\
  confirms page1 !! "2a" = Some {| wrapper := 1%nat; root := 0%nat |} /\
  confirms (snd (unmount failing_unmount "2a" page1)) !! "2a" = None /\
  unmount quiet_unmount "2a" (snd (unmount failing_unmount "2a" page1))
  = (Returned tt, snd (unmount failing_unmount "2a" page1)) /\
  unmount_with (release_reentering quiet_unmount failing_unmount failing_unmount "2a")
    "2a" page1
  = unmount quiet_unmount "2a" page1.
Proof.
  assert (H : confirms page1 !! "2a" = Some {| wrapper := 1%nat; root := 0%nat |})
    by (vm_compute; reflexivity).
  split; [exact page1_reachable |]. split; [exact H |].
  destruct (C5_entry_removed_before_teardown None failing_unmount "2a" page1 _
              page1_reachable H) as ((Hrun & _ & _ & Hgone & Hagain) & _ & _).
  rewrite Hrun. cbn [snd]. split; [exact Hgone |].
  split; [apply (Hagain quiet_unmount) |].
  exact (proj2 (proj2 (C5_entry_removed_before_teardown None quiet_unmount "2a"
                         page1 _ page1_reachable H))
           failing_unmount failing_unmount).
Defined.

(** ** C8: other keys are left alone *)

Lemma unmount_elsewhere h key w :
  (forall r, (forall e, confirms w !! key = Some e -> root e <> r) ->
             roots (snd (unmount h key w)) !! r = roots w !! r) /\
  (forall n, (forall e, confirms w !! key = Some e -> wrapper e <> n) ->
             dom_parent (snd (unmount h key w)) !! n = dom_parent w !! n).
Proof.
  destruct (confirms w !! key) as [e|] eqn:Hk.
  - rewrite (unmount_tracked_world h key w e Hk).
    rewrite release_wrapper_spec, release_root_spec.
    cbn [snd delete_confirms modify].
    split.
    + intros r Hr. specialize (Hr e eq_refl).
      destruct (unmount_throws h), (remove_throws h); open_world;
        try reflexivity;
        destruct (roots w !! root e); try reflexivity;
        now rewrite lookup_insert_ne.
    + intros n Hn. specialize (Hn e eq_refl).
      destruct (unmount_throws h), (remove_throws h); open_world;
        try reflexivity; now rewrite lookup_delete_ne.
  - open_unmount. run_js. rewrite Hk.
    destruct (Js.inherited key); cbn; split; intros; reflexivity.
Qed.

(** C8. In a world the mounter can be in, [unmount] of one key leaves the
    registry entry of every other tracked key as it was, and neither the
    root nor the wrapper of that other entry is touched. *)
Theorem C8_unmount_frame
    (d : option Node) (h : UnmountHost) (key key' : string) (w : World)
    (e' : ConfirmationEntry)
    (Hreach : reachable d w) (Hother : key' <> key)
    (Htracked : confirms w !! key' = Some e') :
  confirms (snd (unmount h key w)) !! key' = Some e' /\
  roots (snd (unmount h key w)) !! root e' = roots w !! root e' /\
  dom_parent (snd (unmount h key w)) !! wrapper e' = dom_parent w !! wrapper e'.
Proof.
  apply reachable_invariant in Hreach as [[_ _ Hdist] _].
  destruct (unmount_elsewhere h key w) as [Hroots Hdom].
  split; [| split].
  - rewrite unmount_confirms. now rewrite lookup_delete_ne.
  - apply Hroots. intros e He.
    destruct (Hdist key key' e e') as [_ Hr]; auto.
  - apply Hdom. intros e He.
    destruct (Hdist key key' e e') as [Hw _]; auto.
Qed.

Lemma page2_reachable : reachable None page2.
Proof.
  exists page, {| Mounter.mount := mount None; Mounter.unmount := unmount;
                  Mounter.options := ∅ |}, page,
    [CallMount (quiet_mount lucky) "Dialog" [("message", "Delete?")] None;
     CallMount (quiet_mount (43 # 1073741824)) "Dialog" [] None].
  split; reflexivity.
Defined.

Lemma C8_unmount_frame_witness :
  reachable None page2 /\ "2b" <> "2a" /\
  confirms page2 !! "2b" = Some {| wrapper := 2%nat; root := 1%nat |} /\
  confirms (snd (unmount quiet_unmount "2a" page2)) !! "2b"
  = Some {| wrapper := 2%nat; root := 1%nat |} /\
  roots (snd (unmount quiet_unmount "2a" page2)) !! 1%nat = roots page2 !! 1%nat /\
  dom_parent (snd (unmount quiet_unmount "2a" page2)) !! 2%nat
  = dom_parent page2 !! 2%nat.
Proof.
  assert (H : confirms page2 !! "2b" = Some {| wrapper := 2%nat; root := 1%nat |})
    by (vm_compute; reflexivity).
  assert (Hne : "2b" <> "2a") by discriminate.
  split; [exact page2_reachable |]. split; [exact Hne |]. split; [exact H |].
  exact (C8_unmount_frame None quiet_unmount "2a" "2b" page2 _
           page2_reachable Hne H).
Defined.

(** ** C3: [unmount] of a key that is not tracked *)

(** For a key that is neither tracked nor the name of a property inherited
    from [Object.prototype], a second [unmount] finds nothing to do. *)
Lemma unmount_twice h h' key w :
  Js.inherited key = false ->
  unmount h' key (snd (unmount h key w)) = (Returned tt, snd (unmount h key w)).
Proof.
  intros Hproto. apply unmount_unknown; [| exact Hproto].
  rewrite unmount_confirms. apply lookup_delete_eq.
Qed.

(** C3. [unmount("constructor")] on a page with an empty registry: the key is
    not tracked, yet [confirms["constructor"]] is the inherited
    [Object.prototype.constructor], the guard does not return, both release
    steps run on it and fail, and two warnings are logged; a second call logs
    two more.  Nothing is thrown, and registry and DOM stay as they were. *)
Theorem C3_unmount_inherited_name_logs_warnings :
  confirms page !! "constructor" = None /\
  unmount quiet_unmount "constructor" page
  = (Returned tt,
     with_console
       (fun _ => [("react-confirm: Failed to unmount React root:", TypeError "unmount");
                  ("react-confirm: Failed to remove DOM wrapper:", TypeError "remove")])
       page) /\
  snd (unmount quiet_unmount "constructor" page) <> page /\
  snd (unmount quiet_unmount "constructor"
         (snd (unmount quiet_unmount "constructor" page)))
  <> snd (unmount quiet_unmount "constructor" page).
Proof.
  split; [reflexivity |]. split; [reflexivity |].
  split; intros H; apply (f_equal console) in H; vm_compute in H; discriminate.
Qed.

(** ** C2: a [mount] that fails *)

(** What the [catch] block does achieve: the registry has no entry under the
    generated key. *)
Lemma mount_failure_untracked d h C props mountNode w e w' :
  mount d h C props mountNode w = (Thrown e, w') ->
  confirms w' !! generateKey (random h) = None.
Proof.
  intros Hm. apply mount_thrown in Hm as (-> & _). apply lookup_delete_eq.
Qed.

(** C2. [createRoot] throws after the wrapper was appended to [document.body]:
    [mount] re-throws the error and the registry has no entry for the key,
    but the wrapper (node 1) is still a child of the body (node 0).  The
    same happens when [render] throws, and then the root stays as well. *)
Theorem C2_failed_mount_leaves_wrapper_attached :
  let after_createRoot := mount None createRoot_fails "Dialog" [] None page in
  let after_render := mount None render_fails "Dialog" [] None page in
  dom_parent page !! 1%nat = None /\
  fst after_createRoot = Thrown (HostError 7) /\
  confirms (snd after_createRoot) !! "2a" = None /\
  dom_parent (snd after_createRoot) !! 1%nat = Some 0%nat /\
  fst after_render = Thrown (HostError 8) /\
  confirms (snd after_render) !! "2a" = None /\
  dom_parent (snd after_render) !! 1%nat = Some 0%nat /\
  roots (snd after_render) !! 0%nat
  = Some {| container := 1%nat; rendered := None; unmounted := false |}.
Proof. vm_compute. repeat split. Qed.

(** ** C1: keys *)

Lemma mount_confirms d h C props mountNode w :
  confirms (snd (mount d h C props mountNode w))
  = <[generateKey (random h) := {| wrapper := next_node w; root := next_root w |}]>
      (confirms w)
  \/ confirms (snd (mount d h C props mountNode w))
     = delete (generateKey (random h)) (confirms w).
Proof.
  destruct (mount d h C props mountNode w) as [[k|e] w'] eqn:Hm; cbn [snd].
  - left. apply mount_returned in Hm as (parent & _ & -> & Hcb).
    apply call_mounted_frame in Hcb as (-> & _). reflexivity.
  - right. now apply mount_thrown in Hm as (-> & _).
Qed.

Lemma started_snoc d host calls c :
  started d host (calls ++ [c])
  = call {| Mounter.mount := mount d; Mounter.unmount := unmount;
            Mounter.options := ∅ |} c (started d host calls).
Proof. unfold started, createDomTreeMounter. apply exec_snoc. Qed.

Lemma started_nil d host : confirms (started d host []) = ∅.
Proof. reflexivity. Qed.

Lemma draws_app l1 l2 : draws (l1 ++ l2) = draws l1 ++ draws l2.
Proof. unfold draws. apply omap_app. Qed.

(** A call changes the tracking of a key only if it is an [unmount], which
    can only drop it, or a [mount] that drew this very key. *)
Lemma call_keeps_untracked d c w k :
  (forall z, In z (draws [c]) -> Js.toString16 z <> k) ->
  confirms w !! k = None ->
  confirms (call {| Mounter.mount := mount d; Mounter.unmount := unmount;
                    Mounter.options := ∅ |} c w) !! k = None.
Proof.
  intros Hdraw Hnone. destruct c as [h C props mn | h key]; cbn [call Mounter.mount Mounter.unmount].
  - assert (Hk : generateKey (random h) <> k).
    { rewrite generateKey_draw. apply Hdraw. cbn. now left. }
    destruct (mount_confirms d h C props mn w) as [-> | ->].
    + now rewrite lookup_insert_ne.
    + apply lookup_delete_None. now right.
  - rewrite unmount_confirms. apply lookup_delete_None. now right.
Qed.

Lemma draw_decision (c : Call) (k : string) :
  (exists z, In z (draws [c]) /\ k = Js.toString16 z) \/
  (forall z, In z (draws [c]) -> Js.toString16 z <> k).
Proof.
  destruct c as [h C props mn | h key]; cbn.
  - destruct (string_dec (Js.toString16 (draw h)) k) as [<- | Hne].
    + left. exists (draw h). split; [now left | reflexivity].
    + right. intros z [<- | []]. exact Hne.
  - right. intros z [].
Qed.

(** Every tracked key renders an integer drawn by an earlier [mount]. *)
Lemma tracked_was_drawn d host calls k :
  is_Some (confirms (started d host calls) !! k) ->
  exists z, In z (draws calls) /\ k = Js.toString16 z.
Proof.
  induction calls as [|c calls IH] using rev_ind.
  - rewrite started_nil, lookup_empty. intros [? [=]].
  - rewrite started_snoc, draws_app. intros Hk.
    destruct (confirms (started d host calls) !! k) as [e|] eqn:Hprev.
    + destruct IH as (z & Hz & ->); [eauto |].
      exists z. split; [apply in_or_app; now left | reflexivity].
    + destruct (draw_decision c k) as [(z & Hz & ->) | Hno].
      * exists z. split; [apply in_or_app; now right | reflexivity].
      * rewrite (call_keeps_untracked d c _ k Hno Hprev) in Hk.
        destruct Hk as [? [=]].
Qed.

Lemma fresh_when_draws_differ d host calls :
  NoDup (draws calls) -> keys_fresh_at_creation d host calls.
Proof.
  intros Hnd pre h C props mn post ->.
  destruct (confirms (started d host pre) !! generateKey (random h)) eqn:Hk;
    [exfalso | reflexivity].
  destruct (tracked_was_drawn d host pre (generateKey (random h)))
    as (z & Hz & Heq); [eauto |].
  rewrite generateKey_draw in Heq. apply toString16_inj in Heq. subst z.
  rewrite draws_app in Hnd. apply NoDup_app in Hnd as (_ & Hdisj & _).
  apply (Hdisj (draw h)); [now apply list_elem_of_In |].
  apply list_elem_of_In. cbn. now left.
Qed.

Lemma gone_when_draws_differ d host calls :
  NoDup (draws calls) -> never_resurrected d host calls.
Proof.
  intros Hnd pre h key mid post -> Htracked.
  destruct (tracked_was_drawn d host pre key Htracked) as (z & Hz & ->).
  assert (Hmid : forall z', In z' (draws mid) -> Js.toString16 z' <> Js.toString16 z).
  { intros z' Hz' Heq. apply toString16_inj in Heq. subst z'.
    rewrite draws_app in Hnd. apply NoDup_app in Hnd as (_ & Hdisj & _).
    apply (Hdisj z); [now apply list_elem_of_In |].
    apply list_elem_of_In. change (In z (draws ([CallUnmount h (Js.toString16 z)] ++ mid ++ post))).
    rewrite !draws_app. apply in_or_app. right. apply in_or_app. now left. }
  clear Hnd Htracked Hz.
  induction mid as [|c mid IH] using rev_ind.
  - rewrite started_snoc. cbn [call Mounter.unmount].
    rewrite unmount_confirms. apply lookup_delete_eq.
  - change (pre ++ CallUnmount h (Js.toString16 z) :: mid ++ [c])
      with (pre ++ (CallUnmount h (Js.toString16 z) :: mid) ++ [c]).
    rewrite app_assoc, started_snoc.
    apply call_keeps_untracked.
    + intros z' Hz'. apply Hmid. rewrite draws_app. apply in_or_app. now right.
    + apply IH. intros z' Hz'. apply Hmid. rewrite draws_app.
      apply in_or_app. now left.
Qed.

(** C1, as the code has it.  The registry is a map, so a key has at most one
    entry at any time.  The key [mount] returns renders the integer drawn
    from [Math.random()], different integers giving different keys; nothing
    compares it with the tracked keys.  Hence, in every sequence of calls
    whose draws are pairwise distinct, each key is untracked when it is
    created and a key removed by [unmount] is not tracked again. *)
Theorem C1_keys_unique_when_draws_differ
    (d : option Node) (host : World) (calls : list Call)
    (Hdistinct : NoDup (draws calls)) :
  keys_fresh_at_creation d host calls /\
  never_resurrected d host calls /\
  (forall k e1 e2,
     confirms (started d host calls) !! k = Some e1 ->
     confirms (started d host calls) !! k = Some e2 -> e1 = e2) /\
  (forall h1 h2, draw h1 <> draw h2 ->
     generateKey (random h1) <> generateKey (random h2)).
Proof.
  split; [now apply fresh_when_draws_differ |].
  split; [now apply gone_when_draws_differ |].
  split; [congruence |].
  intros h1 h2 Hne Heq. apply Hne.
  rewrite !generateKey_draw in Heq. now apply toString16_inj.
Qed.

Lemma C1_keys_unique_when_draws_differ_witness :
  NoDup (draws [CallMount (quiet_mount lucky) "Dialog" [] None;
                CallUnmount quiet_unmount "2a";
                CallMount (quiet_mount (43 # 1073741824)) "Dialog" [] None]) /\
  keys_fresh_at_creation None page
    [CallMount (quiet_mount lucky) "Dialog" [] None;
     CallUnmount quiet_unmount "2a";
     CallMount (quiet_mount (43 # 1073741824)) "Dialog" [] None] /\
  never_resurrected None page
    [CallMount (quiet_mount lucky) "Dialog" [] None;
     CallUnmount quiet_unmount "2a";
     CallMount (quiet_mount (43 # 1073741824)) "Dialog" [] None].
Proof.
  assert (H : NoDup (draws [CallMount (quiet_mount lucky) "Dialog" [] None;
                            CallUnmount quiet_unmount "2a";
                            CallMount (quiet_mount (43 # 1073741824)) "Dialog" [] None])).
  { apply (bool_decide_unpack _). vm_compute. exact I. }
  split; [exact H |].
  destruct (C1_keys_unique_when_draws_differ None page _ H) as (Hf & Hg & _).
  split; assumption.
Defined.

(** C1 as stated fails: when [Math.random()] returns the same value twice,
    the second [mount] returns a key that is tracked at that moment (and
    overwrites its entry), and a key removed by [unmount] is tracked again
    after a later [mount] draws it. *)
Lemma C1_keys_can_repeat :
  (fst (mount None (quiet_mount lucky) "Other" [] None page1) = Returned "2a" /\
   confirms page1 !! "2a" = Some {| wrapper := 1%nat; root := 0%nat |}) /\
  ~ keys_fresh_at_creation None page
      [CallMount (quiet_mount lucky) "Dialog" [] None;
       CallMount (quiet_mount lucky) "Other" [] None] /\
  ~ never_resurrected None page
      [CallMount (quiet_mount lucky) "Dialog" [] None;
       CallUnmount quiet_unmount "2a";
       CallMount (quiet_mount lucky) "Other" [] None].
Proof.
  split; [split; vm_compute; reflexivity |].
  split.
  - intros H.
    specialize (H [CallMount (quiet_mount lucky) "Dialog" [] None]
                  (quiet_mount lucky) "Other" [] None [] eq_refl).
    vm_compute in H. discriminate H.
  - intros H.
    specialize (H [CallMount (quiet_mount lucky) "Dialog" [] None]
                  quiet_unmount "2a"
                  [CallMount (quiet_mount lucky) "Other" [] None] [] eq_refl).
    assert (Hyes : is_Some (confirms (started None page
                     [CallMount (quiet_mount lucky) "Dialog" [] None]) !! "2a")).
    { eexists. vm_compute. reflexivity. }
    specialize (H Hyes). vm_compute in H. discriminate H.
Qed.

(** ** C6: [mount], then [unmount] *)

(** C6, as the code has it.  When [mount] returns a key that was not tracked
    before the call (always so from an empty registry), an immediate
    [unmount] of that key returns, and leaves the registry exactly as it was
    before the [mount]; the wrapper is detached when [wrapper.remove()] does
    not throw, and the root is unmounted and empty when [root.unmount()] does
    not throw. *)
Theorem C6_mount_unmount_round_trip
    (d : option Node) (h : MountHost) (u : UnmountHost) (C : Component)
    (props : Props) (mountNode : option Node) (w w1 : World) (k : string)
    (Hmount : mount d h C props mountNode w = (Returned k, w1))
    (Hfresh : confirms w !! k = None) :
  exists w2,
    unmount u k w1 = (Returned tt, w2) /\
    confirms w2 = confirms w /\
    (confirms w = ∅ -> confirms w2 = ∅) /\
    (remove_throws u = None -> dom_parent w2 !! next_node w = None) /\
    (unmount_throws u = None ->
     roots w2 !! next_root w
     = Some {| container := next_node w; rendered := None; unmounted := true |}).
Proof.
  apply mount_returned in Hmount as (parent & _ & -> & Hcb).
  apply call_mounted_frame in Hcb as (Hc & _ & Hr & _).
  unfold before_mounted in Hc, Hr. cbn [confirms roots] in Hc, Hr.
  set (e := {| wrapper := next_node w; root := next_root w |}) in *.
  assert (Hk : confirms w1 !! generateKey (random h) = Some e)
    by (rewrite Hc; apply lookup_insert_eq).
  destruct (teardown_effects u _ w1 e Hk) as (w2 & Hrun & _ & Hdom & Hroot).
  exists w2. split; [exact Hrun |].
  assert (Hreg : confirms w2 = confirms w).
  { replace w2 with (snd (unmount u (generateKey (random h)) w1))
      by now rewrite Hrun.
    rewrite unmount_confirms, Hc, delete_insert_eq. now apply delete_id. }
  split; [exact Hreg |]. split; [congruence |].
  split; [exact Hdom |].
  intros Hquiet.
  apply (Hroot Hquiet {| container := next_node w; rendered := Some (jsx C props);
                         unmounted := false |}).
  rewrite Hr. apply lookup_insert_eq.
Qed.

Lemma C6_mount_unmount_round_trip_witness :
  mount None (quiet_mount lucky) "Dialog" [("message", "Delete?")] None page
  = (Returned "2a", page1) /\
  confirms page !! "2a" = None /\
  fst (unmount quiet_unmount "2a" page1) = Returned tt /\
  confirms (snd (unmount quiet_unmount "2a" page1)) = ∅ /\
  dom_parent (snd (unmount quiet_unmount "2a" page1)) !! 1%nat = None /\
  roots (snd (unmount quiet_unmount "2a" page1)) !! 0%nat
  = Some {| container := 1%nat; rendered := None; unmounted := true |}.
Proof.
  assert (Hm : mount None (quiet_mount lucky) "Dialog" [("message", "Delete?")]
                 None page = (Returned "2a", page1))
    by (vm_compute; reflexivity).
  assert (Hf : confirms page !! "2a" = None) by reflexivity.
  split; [exact Hm |]. split; [exact Hf |].
  destruct (C6_mount_unmount_round_trip None (quiet_mount lucky) quiet_unmount
              _ _ _ _ _ _ Hm Hf) as (w2 & Hrun & _ & Hempty & Hdom & Hroot).
  rewrite Hrun. cbn [fst snd].
  split; [reflexivity |]. split; [now apply Hempty |].
  split; [now apply Hdom | now apply Hroot].
Defined.

(** C6 as stated fails for a registry that already tracks the key the
    [mount] draws: the [mount] overwrites that entry, the [unmount] deletes
    it, and the registry, which tracked ["2a"] before, tracks nothing; the
    first dialog's wrapper and root are left behind, attached and rendered. *)
Lemma C6_round_trip_loses_colliding_entry :
  exists w1,
    mount None (quiet_mount lucky) "Other" [] None page1 = (Returned "2a", w1) /\
    unmount quiet_unmount "2a" w1 = (Returned tt, snd (unmount quiet_unmount "2a" w1)) /\
    confirms page1 !! "2a" = Some {| wrapper := 1%nat; root := 0%nat |} /\
    confirms (snd (unmount quiet_unmount "2a" w1)) !! "2a" = None /\
    confirms (snd (unmount quiet_unmount "2a" w1)) <> confirms page1 /\
    dom_parent (snd (unmount quiet_unmount "2a" w1)) !! 1%nat = Some 0%nat /\
    roots (snd (unmount quiet_unmount "2a" w1)) !! 0%nat
    = Some {| container := 1%nat;
              rendered := Some (jsx "Dialog" [("message", "Delete?")]);
              unmounted := false |}.
Proof.
  eexists. split; [vm_compute; reflexivity |].
  split; [vm_compute; reflexivity |].
  split; [vm_compute; reflexivity |].
  split; [vm_compute; reflexivity |].
  split; [| split; vm_compute; reflexivity].
  intros H. apply (f_equal (fun m => m !! "2a")) in H.
  vm_compute in H. discriminate H.
Qed.

(** * Further properties of the mounter *)

(** ** The shape of a key *)

Lemma of_pos_lower_hex :
  forall (p : positive) (rest : string),
    all_lower_hex rest = true ->
    all_lower_hex (HexString.Raw.of_pos p rest) = true.
Proof.
  fix IH 1. intros p rest Hrest.
  do 4 try destruct p as [p|p|];
    try (cbn; exact Hrest);
    cbn [HexString.Raw.of_pos]; apply IH; cbn; exact Hrest.
Qed.

Lemma of_pos_length :
  forall (p : positive) (rest : string) (n : nat),
    (Pos.size_nat p <= 4 * n)%nat ->
    (String.length (HexString.Raw.of_pos p rest) <= n + String.length rest)%nat.
Proof.
  fix IH 1. intros p rest n Hsize.
  destruct n as [|n]; [destruct p; cbn in Hsize; lia |].
  do 4 try destruct p as [p|p|];
    try (cbn; lia);
    cbn [HexString.Raw.of_pos];
    (etransitivity; [apply (IH p _ n); cbn in Hsize; lia | cbn; lia]).
Qed.

Lemma draw_range (r : Q) :
  (0 <= r)%Q -> (r < 1)%Q ->
  0 <= Js.floor (r * inject_Z (Js.shl 1 30)) < 2 ^ 30.
Proof.
  intros H0 H1. change (Js.shl 1 30) with (2 ^ 30). unfold Js.floor. split.
  - change 0 with (Qfloor 0). apply Qfloor_resp_le.
    apply Qmult_le_0_compat; [exact H0 | discriminate].
  - rewrite Zlt_Qlt.
    apply Qle_lt_trans with (r * inject_Z (2 ^ 30))%Q; [apply Qfloor_le |].
    destruct r as [a b]. unfold Qlt in *. cbn in *.
    rewrite Pos.mul_1_r. lia.
Qed.

(** X1. When [Math.random()] returns a value in [0, 1), the integer that
    [generateKey] renders lies in [0, 2^30), and the key is a non-empty
    string of at most eight characters, all of them among [0-9a-f]; it is
    never the name of a property inherited from [Object.prototype]. *)
Theorem X1_generateKey_shape (r : Q) (Hlow : (0 <= r)%Q) (Hhigh : (r < 1)%Q) :
  0 <= Js.floor (r * inject_Z (Js.shl 1 30)) < 2 ^ 30 /\
  (1 <= String.length (generateKey r) <= 8)%nat /\
  all_lower_hex (generateKey r) = true /\
  Js.inherited (generateKey r) = false.
Proof.
  pose proof (draw_range r Hlow Hhigh) as Hrange.
  split; [exact Hrange |].
  split; [| split; [| apply toString16_not_inherited]].
  - unfold generateKey.
    destruct (Js.floor (r * inject_Z (Js.shl 1 30))) as [|p|p];
      [cbn; lia | | lia].
    unfold Js.toString16. split.
    + destruct (of_pos_head p "") as (c & s & -> & _). cbn. lia.
    + assert (Hs : (Pos.size_nat p <= 4 * 8)%nat).
      { assert (Hp : (p < 2 ^ 30)%positive) by lia.
        apply Pos.size_nat_monotone in Hp.
        change (Pos.size_nat (2 ^ 30)) with 31%nat in Hp. lia. }
      pose proof (of_pos_length p "" 8 Hs) as Hlen. cbn in Hlen. lia.
  - unfold generateKey.
    destruct (Js.floor (r * inject_Z (Js.shl 1 30))) as [|p|p];
      [reflexivity | | lia].
    now apply of_pos_lower_hex.
Qed.

Lemma X1_generateKey_shape_witness :
  (0 <= lucky)%Q /\ (lucky < 1)%Q /\
  generateKey lucky = "2a" /\
  (1 <= String.length (generateKey lucky) <= 8)%nat.
Proof.
  assert (H0 : (0 <= lucky)%Q) by (vm_compute; discriminate).
  assert (H1 : (lucky < 1)%Q) by reflexivity.
  split; [exact H0 |]. split; [exact H1 |]. split; [reflexivity |].
  exact (proj1 (proj2 (X1_generateKey_shape lucky H0 H1))).
Defined.

(** ** [unmount] with a key that [generateKey] can produce *)

(** X2. For every key [generateKey] can produce, in every world and host:
    when the key is not tracked, [unmount] returns at once and changes
    nothing, the console included; and whatever the first [unmount] of such a
    key did, a second one changes nothing. *)
Theorem X2_unmount_generated_key
    (r : Q) (h h' : UnmountHost) (w : World)
    (Huntracked : confirms w !! generateKey r = None) :
  unmount h (generateKey r) w = (Returned tt, w) /\
  forall w0 : World,
    unmount h' (generateKey r) (snd (unmount h (generateKey r) w0))
    = (Returned tt, snd (unmount h (generateKey r) w0)).
Proof.
  assert (Hproto : Js.inherited (generateKey r) = false)
    by apply toString16_not_inherited.
  split; [now apply unmount_unknown |].
  intros w0. now apply unmount_twice.
Qed.

Lemma X2_unmount_generated_key_witness :
  confirms page !! generateKey lucky = None /\
  unmount failing_unmount (generateKey lucky) page = (Returned tt, page) /\
  unmount failing_unmount "2a" (snd (unmount quiet_unmount "2a" page1))
  = (Returned tt, snd (unmount quiet_unmount "2a" page1)).
Proof.
  assert (H : confirms page !! generateKey lucky = None) by reflexivity.
  split; [exact H |].
  destruct (X2_unmount_generated_key lucky quiet_unmount failing_unmount page H)
    as [Hnoop Htwice].
  split; [| exact (Htwice page1)].
  exact (proj1 (X2_unmount_generated_key lucky failing_unmount failing_unmount
                  page H)).
Defined.

(** ** The outcome of [mount] *)

(** X3. With a container resolved and [document] defined, [mount] throws
    exactly the error of the first step that throws, in the order
    [createElement], [appendChild], [createRoot], [render], the [mounted]
    callback when one is set, and returns the generated key when none does. *)
Theorem X3_mount_outcome
    (d : option Node) (h : MountHost) (C : Component) (props : Props)
    (mountNode : option Node) (w : World) (parent : Node)
    (Hparent : getParentNode d mountNode w = (Returned (Some parent), w))
    (Hdoc : is_Some (document w)) :
  fst (mount d h C props mountNode w)
  = match createElement_throws h, appendChild_throws h,
          createRoot_throws h, render_throws h with
    | Some e, _, _, _ => Thrown e
    | None, Some e, _, _ => Thrown e
    | None, None, Some e, _ => Thrown e
    | None, None, None, Some e => Thrown e
    | None, None, None, None =>
        match mounted (callbacks w), mounted_throws h with
        | Some _, Some e => Thrown e
        | _, _ => Returned (generateKey (random h))
        end
    end.
Proof.
  destruct Hdoc as [doc Hdoc]. revert Hparent.
  walk_mount d h mountNode w
    ltac:(intros Hq; try discriminate Hq; try congruence; reflexivity).
  intros _.
  destruct (mounted (callbacks w)); [destruct (mounted_throws h) |]; reflexivity.
Qed.

Lemma X3_mount_outcome_witness :
  getParentNode None None page = (Returned (Some 0%nat), page) /\
  is_Some (document page) /\
  fst (mount None render_fails "Dialog" [] None page) = Thrown (HostError 8) /\
  fst (mount None (quiet_mount lucky) "Dialog" [] None page) = Returned "2a".
Proof.
  assert (Hp : getParentNode None None page = (Returned (Some 0%nat), page))
    by reflexivity.
  assert (Hd : is_Some (document page)) by (eexists; reflexivity).
  split; [exact Hp |]. split; [exact Hd |].
  split.
  - exact (X3_mount_outcome None render_fails "Dialog" [] None page 0%nat Hp Hd).
  - exact (X3_mount_outcome None (quiet_mount lucky) "Dialog" [] None page
             0%nat Hp Hd).
Defined.

(** X4. In a world the mounter can be in, with a container resolved,
    [document] defined and a host in which none of the four calls throws,
    [mount] returns the generated key, and the world it leaves is exactly
    [before_mounted]: one node and one root allocated, the wrapper attached,
    the element rendered, the entry recorded, nothing logged. *)
Theorem X4_mount_returns_in_quiet_host
    (d : option Node) (h : MountHost) (C : Component) (props : Props)
    (mountNode : option Node) (w : World) (parent : Node)
    (Hreach : reachable d w)
    (Hparent : getParentNode d mountNode w = (Returned (Some parent), w))
    (Hdoc : is_Some (document w))
    (Hquiet : createElement_throws h = None /\ appendChild_throws h = None /\
              createRoot_throws h = None /\ render_throws h = None) :
  mount d h C props mountNode w
  = (Returned (generateKey (random h)),
     before_mounted parent (generateKey (random h)) (jsx C props) w).
Proof.
  destruct Hdoc as [doc Hdoc].
  destruct Hquiet as (Hq1 & Hq2 & Hq3 & Hq4).
  apply reachable_invariant in Hreach as [_ Hcb].
  revert Hparent.
  walk_mount d h mountNode w ltac:(intros Hq; congruence).
  intros [= <-]. rewrite Hcb. unfold before_mounted.
  now rewrite insert_insert_eq.
Qed.

Lemma X4_mount_returns_in_quiet_host_witness :
  reachable None page1 /\
  getParentNode None None page1 = (Returned (Some 0%nat), page1) /\
  mount None (quiet_mount (43 # 1073741824)) "Dialog" [] None page1
  = (Returned "2b", page2).
Proof.
  assert (Hp : getParentNode None None page1 = (Returned (Some 0%nat), page1))
    by reflexivity.
  assert (Hd : is_Some (document page1)) by (eexists; reflexivity).
  split; [exact page1_reachable |]. split; [exact Hp |].
  rewrite (X4_mount_returns_in_quiet_host None (quiet_mount (43 # 1073741824))
             "Dialog" [] None page1 0%nat page1_reachable Hp Hd
             (conj eq_refl (conj eq_refl (conj eq_refl eq_refl)))).
  vm_compute. reflexivity.
Defined.

(** ** What [mount] leaves alone *)

Lemma mount_elsewhere d h C props mountNode w :
  (forall k, k <> generateKey (random h) ->
     confirms (snd (mount d h C props mountNode w)) !! k = confirms w !! k) /\
  (forall n, n <> next_node w ->
     dom_parent (snd (mount d h C props mountNode w)) !! n = dom_parent w !! n) /\
  (forall r, r <> next_root w ->
     roots (snd (mount d h C props mountNode w)) !! r = roots w !! r) /\
  console (snd (mount d h C props mountNode w)) = console w.
Proof.
  walk_mount d h mountNode w
    ltac:(open_world; repeat split; intros;
          rewrite ?lookup_delete_ne, ?lookup_insert_ne by congruence;
          reflexivity).
  destruct (mounted (callbacks w)); [destruct (mounted_throws h) |];
    open_world; repeat split; intros;
    rewrite ?lookup_delete_ne, ?lookup_insert_ne by congruence; reflexivity.
Qed.



(** ** A [mount] that throws *)

(** X6. When [mount] throws, the registry has no entry under the generated
    key and every other key is tracked as before.  So the registry is exactly
    as it was when the key was untracked before the call; when the key was
    already tracked, by an earlier instance that drew the same key, that
    earlier entry is the one the [catch] block deletes. *)
Theorem X6_failed_mount_registry
    (d : option Node) (h : MountHost) (C : Component) (props : Props)
    (mountNode : option Node) (w w' : World) (e : Error)
    (Hthrown : mount d h C props mountNode w = (Thrown e, w')) :
  confirms w' = delete (generateKey (random h)) (confirms w) /\
  confirms w' !! generateKey (random h) = None /\
  (forall k, k <> generateKey (random h) -> confirms w' !! k = confirms w !! k) /\
  (confirms w !! generateKey (random h) = None -> confirms w' = confirms w).
Proof.
  apply mount_thrown in Hthrown as (-> & _).
  split; [reflexivity |]. split; [apply lookup_delete_eq |].
  split; [intros k Hk; now apply lookup_delete_ne |].
  intros Hnone. now apply delete_id.
Qed.

Lemma X6_failed_mount_registry_witness :
  mount None createRoot_fails "Other" [] None page1
  = (Thrown (HostError 7), snd (mount None createRoot_fails "Other" [] None page1)) /\
  confirms page1 !! "2a" = Some {| wrapper := 1%nat; root := 0%nat |} /\
  confirms (snd (mount None createRoot_fails "Other" [] None page1)) !! "2a" = None.
Proof.
  assert (H : mount None createRoot_fails "Other" [] None page1
              = (Thrown (HostError 7),
                 snd (mount None createRoot_fails "Other" [] None page1)))
    by (vm_compute; reflexivity).
  split; [exact H |]. split; [vm_compute; reflexivity |].
  exact (proj1 (proj2 (X6_failed_mount_registry None createRoot_fails "Other" []
                         None page1 _ _ H))).
Defined.

(** X7. With no [mountNode] argument and no [defaultMountNode], a page
    without a body makes [mount] throw before it creates anything: a
    [ReferenceError] when [document] is not defined, a [TypeError] when
    [document.body] is [null].  The host is left as it was; only the
    generated key is deleted from the registry. *)
Theorem X7_mount_without_container
    (h : MountHost) (C : Component) (props : Props) (w : World)
    (Hnobody : match document w with
               | Some doc => body doc = None
               | None => True
               end) :
  mount None h C props None w
  = (Thrown match document w with
            | Some _ => TypeError "appendChild"
            | None => ReferenceError "document"
            end,
     with_confirms (fun c => delete (generateKey (random h)) c) w).
Proof.
  open_mount; unfold getParentNode, createElement. run_js.
  destruct (document w) as [[b]|]; [| reflexivity].
  cbn in Hnobody. subst b. reflexivity.
Qed.

Lemma X7_mount_without_container_witness :
  match document headless with
  | Some doc => body doc = None
  | None => True
  end /\
  mount None (quiet_mount lucky) "Dialog" [] None headless
  = (Thrown (TypeError "appendChild"), headless).
Proof.
  assert (H : match document headless with
              | Some doc => body doc = None
              | None => True
              end) by reflexivity.
  split; [exact H |].
  rewrite (X7_mount_without_container (quiet_mount lucky) "Dialog" [] headless H).
  vm_compute. reflexivity.
Defined.

(** ** Tracked entries are live *)

Lemma live_after_mount d h C props mountNode w :
  registry_ok w ->
  (forall k e, confirms w !! k = Some e -> entry_live w e) ->
  forall k e, confirms (snd (mount d h C props mountNode w)) !! k = Some e ->
              entry_live (snd (mount d h C props mountNode w)) e.
Proof.
  intros [_ Halloc _] Hlive k e Hk.
  destruct (mount_elsewhere d h C props mountNode w) as (Hc & Hd & Hr & _).
  destruct (decide (k = generateKey (random h))) as [-> | Hne].
  - destruct (mount d h C props mountNode w) as [[k0|err] w'] eqn:Hm;
      cbn [snd] in *.
    + apply mount_returned in Hm as (parent & _ & -> & Hcb).
      apply call_mounted_frame in Hcb as (Hc' & Hd' & Hr' & _).
      unfold before_mounted in Hc', Hd', Hr'.
      cbn [confirms dom_parent roots] in Hc', Hd', Hr'.
      rewrite Hc', lookup_insert_eq in Hk. injection Hk as <-.
      unfold entry_live. cbn [wrapper root]. rewrite Hr', !lookup_insert_eq.
      eauto.
    + apply mount_thrown in Hm as (Hdel & _).
      rewrite Hdel, lookup_delete_eq in Hk. discriminate.
  - rewrite Hc in Hk by exact Hne.
    destruct (Halloc k e Hk) as [Hn Hrt].
    pose proof (Hlive k e Hk) as Hroot.
    unfold entry_live. now rewrite Hr by lia.
Qed.

Lemma live_after_unmount h key w :
  registry_ok w ->
  (forall k e, confirms w !! k = Some e -> entry_live w e) ->
  forall k e, confirms (snd (unmount h key w)) !! k = Some e ->
              entry_live (snd (unmount h key w)) e.
Proof.
  intros [_ _ Hdist] Hlive k e Hk.
  rewrite unmount_confirms in Hk. apply lookup_delete_Some in Hk as [Hne Hk].
  destruct (unmount_elsewhere h key w) as [Hr Hd].
  pose proof (Hlive k e Hk) as Hroot.
  unfold entry_live. rewrite Hr; [exact Hroot |].
  intros e0 He0. now destruct (Hdist key k e0 e) as [_ ?].
Qed.

Lemma reachable_entries_live
    (d : option Node) (w : World) (key : string) (e : ConfirmationEntry)
    (Hreach : reachable d w) (Htracked : confirms w !! key = Some e) :
  entry_live w e.
Proof.
  revert key e Htracked.
  destruct Hreach as (host & m & w0 & calls & Hnew & ->).
  injection Hnew as <- <-.
  induction calls as [|c calls IH] using rev_ind.
  - intros key e Hk. cbn in Hk. rewrite lookup_empty in Hk. discriminate.
  - rewrite exec_snoc.
    match goal with
    | |- context [call ?m c (exec ?m calls ?w0)] =>
        assert (Hok : registry_ok (exec m calls w0))
    end.
    { apply (reachable_invariant d). exists host. do 3 eexists.
      split; reflexivity. }
    destruct c as [h C props mn | h key0]; cbn [call Mounter.mount Mounter.unmount].
    + now apply live_after_mount.
    + now apply live_after_unmount.
Qed.

(** X8. In every world the mounter can be in, each tracked entry owns a
    root that the host has created on the entry's wrapper, that has been
    handed an element by [render] and has not been unmounted; wrapper and
    root are allocated, and no entry under another key shares them. *)
Theorem X8_tracked_entries_are_live
    (d : option Node) (w : World) (key : string) (e : ConfirmationEntry)
    (Hreach : reachable d w) (Htracked : confirms w !! key = Some e) :
  (exists el, roots w !! root e
              = Some {| container := wrapper e; rendered := Some el;
                        unmounted := false |}) /\
  (wrapper e < next_node w)%nat /\ (root e < next_root w)%nat /\
  forall key' e', key' <> key -> confirms w !! key' = Some e' ->
                  wrapper e' <> wrapper e /\ root e' <> root e.
Proof.
  split; [exact (reachable_entries_live d w key e Hreach Htracked) |].
  apply reachable_invariant in Hreach as [[_ Halloc Hdist] _].
  destruct (Halloc key e Htracked) as [Hn Hr].
  split; [exact Hn |]. split; [exact Hr |].
  intros key' e' Hne He'. now apply (Hdist key' key).
Qed.

Lemma X8_tracked_entries_are_live_witness :
  reachable None page2 /\
  confirms page2 !! "2a" = Some {| wrapper := 1%nat; root := 0%nat |} /\
  exists el, roots page2 !! 0%nat
             = Some {| container := 1%nat; rendered := Some el;
                       unmounted := false |}.
Proof.
  assert (H : confirms page2 !! "2a" = Some {| wrapper := 1%nat; root := 0%nat |})
    by (vm_compute; reflexivity).
  split; [exact page2_reachable |]. split; [exact H |].
  exact (proj1 (X8_tracked_entries_are_live None page2 "2a" _ page2_reachable H)).
Defined.

(** ** Where tracked keys come from *)

Lemma draws_from_mounts (calls : list Call) (z : Z) :
  In z (draws calls) ->
  exists h C props mountNode,
    In (CallMount h C props mountNode) calls /\ z = draw h.
Proof.
  induction calls as [|c calls IH]; [intros [] |].
  change (c :: calls) with ([c] ++ calls). rewrite draws_app.
  intros Hin. apply in_app_or in Hin as [Hin | Hin].
  - destruct c as [h C props mn | h key]; cbn in Hin; [| destruct Hin].
    destruct Hin as [<- | []]. exists h, C, props, mn. split; [now left | reflexivity].
  - destruct (IH Hin) as (h & C & props & mn & Hc & ->).
    exists h, C, props, mn. split; [now right | reflexivity].
Qed.

(** X9. Whatever calls have been made on a mounter, every key its registry
    tracks is the key generated by one of the [mount] calls made so far;
    [unmount] never adds a key, and no tracked key is the name of a property
    inherited from [Object.prototype]. *)
Theorem X9_tracked_keys_were_generated
    (d : option Node) (host : World) (calls : list Call) (key : string)
    (Htracked : is_Some (confirms (started d host calls) !! key)) :
  (exists h C props mountNode,
     In (CallMount h C props mountNode) calls /\ key = generateKey (random h)) /\
  Js.inherited key = false.
Proof.
  destruct (tracked_was_drawn d host calls key Htracked) as (z & Hz & ->).
  split; [| apply toString16_not_inherited].
  destruct (draws_from_mounts calls z Hz) as (h & C & props & mn & Hin & ->).
  exists h, C, props, mn. split; [exact Hin | reflexivity].
Qed.

Lemma X9_tracked_keys_were_generated_witness :
  is_Some (confirms (started None page
             [CallMount (quiet_mount lucky) "Dialog" [] None]) !! "2a") /\
  Js.inherited "2a" = false.
Proof.
  assert (H : is_Some (confirms (started None page
                [CallMount (quiet_mount lucky) "Dialog" [] None]) !! "2a"))
    by (eexists; vm_compute; reflexivity).
  split; [exact H |].
  exact (proj2 (X9_tracked_keys_were_generated None page _ "2a" H)).
Defined.

(** ** Unmounting several keys *)

(** X10. After a series of [unmount] calls, in any hosts and in any order,
    with repetitions or unknown keys among them, none of the keys passed is
    tracked and every other key is tracked exactly as before; no node or root
    is allocated.  In particular the registry is empty once every tracked key
    has been passed. *)
Theorem X10_unmount_series
    (d : option Node) (host : World) (m : Mounter.t) (w0 : World)
    (Hnew : createDomTreeMounter d host = (Returned m, w0))
    (us : list (UnmountHost * string)) (w : World) :
  let w' := exec m (map (fun u => CallUnmount (fst u) (snd u)) us) w in
  (forall k, confirms w' !! k
             = if decide (k ∈ map snd us) then None else confirms w !! k) /\
  next_node w' = next_node w /\ next_root w' = next_root w /\
  ((forall k, is_Some (confirms w !! k) -> k ∈ map snd us) -> confirms w' = ∅).
Proof.
  intros w'. subst w'.
  apply createDomTreeMounter_inv in Hnew as (_ & Hu & _).
  assert (Hall : (forall k, confirms (exec m (map (fun u => CallUnmount (fst u) (snd u)) us) w) !! k
             = if decide (k ∈ map snd us) then None else confirms w !! k) /\
    next_node (exec m (map (fun u => CallUnmount (fst u) (snd u)) us) w) = next_node w /\
    next_root (exec m (map (fun u => CallUnmount (fst u) (snd u)) us) w) = next_root w).
  { induction us as [|[h key] us (IHc & IHn & IHr)] using rev_ind.
    - cbn. repeat split.
    - rewrite !map_app. cbn [map fst snd]. rewrite exec_snoc. cbn [call].
      rewrite Hu.
      destruct (unmount_callbacks h key
                  (exec m (map (fun u => CallUnmount (fst u) (snd u)) us) w))
        as (_ & _ & -> & -> & _).
      repeat split; try assumption.
      intros k. rewrite unmount_confirms.
      destruct (decide (k = key)) as [-> | Hne].
      + rewrite lookup_delete_eq. rewrite decide_True; [reflexivity |].
        apply elem_of_app. right. apply list_elem_of_singleton. reflexivity.
      + rewrite lookup_delete_ne by congruence. rewrite IHc.
        assert (Hiff : k ∈ map snd us ++ [key] <-> k ∈ map snd us)
          by (rewrite elem_of_app, list_elem_of_singleton; tauto).
        destruct (decide (k ∈ map snd us)), (decide (k ∈ map snd us ++ [key]));
          try reflexivity; tauto. }
  destruct Hall as (Hc & Hn & Hr).
  repeat split; try assumption.
  intros Hcover. apply map_eq. intros k. rewrite Hc, lookup_empty.
  case_decide as Hin; [reflexivity |].
  destruct (confirms w !! k) eqn:Hk; [| reflexivity].
  exfalso. apply Hin, Hcover. rewrite Hk. eauto.
Qed.

Lemma X10_unmount_series_witness :
  createDomTreeMounter None page
  = (Returned {| Mounter.mount := mount None; Mounter.unmount := unmount;
                 Mounter.options := ∅ |}, page) /\
  confirms (exec {| Mounter.mount := mount None; Mounter.unmount := unmount;
                    Mounter.options := ∅ |}
              [CallUnmount failing_unmount "2b"; CallUnmount quiet_unmount "2a";
               CallUnmount quiet_unmount "2b"] page2) !! "2a" = None.
Proof.
  assert (H : createDomTreeMounter None page
              = (Returned {| Mounter.mount := mount None; Mounter.unmount := unmount;
                             Mounter.options := ∅ |}, page)) by reflexivity.
  split; [exact H |].
  destruct (X10_unmount_series None page _ page H
              [(failing_unmount, "2b"); (quiet_unmount, "2a"); (quiet_unmount, "2b")]
              page2) as (Hc & _).
  exact (Hc "2a").
Defined.

(** ** What [unmount] leaves alone *)

(** X11. In any world, [unmount] changes nothing but the registry entry of
    its key, the root and the wrapper of that entry, and the console: the
    registry is the old one without the key, every root and every node that
    does not belong to that entry is as before, nothing is allocated, and
    [document] and [callbacks] are untouched. *)
Theorem X11_unmount_footprint
    (h : UnmountHost) (key : string) (w : World) (n : Node) (r : RootId)
    (Hnode : forall e, confirms w !! key = Some e -> wrapper e <> n)
    (Hroot : forall e, confirms w !! key = Some e -> root e <> r) :
  let w' := snd (unmount h key w) in
  confirms w' = delete key (confirms w) /\
  dom_parent w' !! n = dom_parent w !! n /\
  roots w' !! r = roots w !! r /\
  next_node w' = next_node w /\ next_root w' = next_root w /\
  document w' = document w /\ callbacks w' = callbacks w /\
  exists warnings, console w' = console w ++ warnings /\ (length warnings <= 2)%nat.
Proof.
  intros w'. subst w'.
  destruct (unmount_elsewhere h key w) as [Hr Hd].
  destruct (unmount_callbacks h key w) as (Hcb & _ & Hn & Hnr & Hdoc).
  split; [apply unmount_confirms |].
  split; [now apply Hd |]. split; [now apply Hr |].
  repeat (split; [assumption |]).
  open_unmount. run_js.
  destruct (confirms w !! key); [| destruct (Js.inherited key)]; cbn;
    destruct (unmount_throws h), (remove_throws h); open_world;
    rewrite <- ?app_assoc;
    first [ eexists; split; [reflexivity | cbn; lia]
          | exists []; split; [now rewrite app_nil_r | cbn; lia] ].
Qed.

Lemma X11_unmount_footprint_witness :
  (forall e, confirms page2 !! "2a" = Some e -> wrapper e <> 2%nat) /\
  (forall e, confirms page2 !! "2a" = Some e -> root e <> 1%nat) /\
  dom_parent (snd (unmount failing_unmount "2a" page2)) !! 2%nat
  = dom_parent page2 !! 2%nat /\
  roots (snd (unmount failing_unmount "2a" page2)) !! 1%nat = roots page2 !! 1%nat.
Proof.
  assert (Hk : confirms page2 !! "2a" = Some {| wrapper := 1%nat; root := 0%nat |})
    by (vm_compute; reflexivity).
  assert (Hn : forall e, confirms page2 !! "2a" = Some e -> wrapper e <> 2%nat)
    by (intros e He; rewrite Hk in He; injection He as <-; discriminate).
  assert (Hr : forall e, confirms page2 !! "2a" = Some e -> root e <> 1%nat)
    by (intros e He; rewrite Hk in He; injection He as <-; discriminate).
  split; [exact Hn |]. split; [exact Hr |].
  destruct (X11_unmount_footprint failing_unmount "2a" page2 2%nat 1%nat Hn Hr)
    as (_ & Hd & Hrt & _).
  split; [exact Hd | exact Hrt].
Defined.

(** ** Resources the registry has lost track of *)





(** ** Several dialogs at once *)

Lemma mount_quiet d h C props mountNode w parent :
  getParentNode d mountNode w = (Returned (Some parent), w) ->
  is_Some (document w) ->
  createElement_throws h = None -> appendChild_throws h = None ->
  createRoot_throws h = None -> render_throws h = None ->
  mounted (callbacks w) = None ->
  mount d h C props mountNode w
  = (Returned (generateKey (random h)),
     before_mounted parent (generateKey (random h)) (jsx C props) w).
Proof.
  intros Hparent [doc Hdoc] Hq1 Hq2 Hq3 Hq4 Hcb. revert Hparent.
  walk_mount d h mountNode w ltac:(intros Hq; congruence).
  intros [= <-]. rewrite Hcb. unfold before_mounted.
  now rewrite insert_insert_eq.
Qed.

Lemma started_reachable d host calls : reachable d (started d host calls).
Proof. exists host. do 2 eexists. exists calls. split; reflexivity. Qed.

Lemma started_document d host calls :
  document (started d host calls) = document host.
Proof.
  induction calls as [|c calls IH] using rev_ind; [reflexivity |].
  rewrite started_snoc.
  destruct c as [h C props mn | h key]; cbn [call Mounter.mount Mounter.unmount].
  - destruct (mount_closure d h C props mn (started d host calls)) as (_ & -> & _).
    exact IH.
  - destruct (unmount_callbacks h key (started d host calls))
      as (_ & _ & _ & _ & ->).
    exact IH.
Qed.

Lemma draws_of_mounts (ms : list (Q * Component * Props)) :
  draws (map (fun x => CallMount (quiet_mount x.1.1) x.1.2 x.2 None) ms)
  = map (fun x => draw (quiet_mount x.1.1)) ms.
Proof.
  induction ms as [|x ms IH]; [reflexivity |].
  change (draw (quiet_mount x.1.1)
          :: draws (map (fun x => CallMount (quiet_mount x.1.1) x.1.2 x.2 None) ms)
          = draw (quiet_mount x.1.1)
            :: map (fun x => draw (quiet_mount x.1.1)) ms).
  now rewrite IH.
Qed.

(** X13. On a page with a body, in a host that does not throw, mounting
    several dialogs one after the other with pairwise distinct draws tracks
    them all: the registry holds one entry per [mount], under the key of
    each. *)
Theorem X13_mounts_accumulate
    (d : option Node) (host : World) (b : Node)
    (ms : list (Q * Component * Props))
    (Hbody : document host = Some {| body := Some b |})
    (Hdistinct : NoDup (map (fun x => draw (quiet_mount x.1.1)) ms)) :
  let calls := map (fun x => CallMount (quiet_mount x.1.1) x.1.2 x.2 None) ms in
  size (confirms (started d host calls)) = length ms /\
  forall x, x ∈ ms ->
            is_Some (confirms (started d host calls) !! generateKey x.1.1).
Proof.
  intros calls. subst calls.
  induction ms as [|x ms IH] using rev_ind.
  - split; [reflexivity |]. intros x Hx. now apply elem_of_nil in Hx.
  - rewrite map_app in Hdistinct. apply NoDup_app in Hdistinct as (Hnd & Hfresh & _).
    destruct (IH Hnd) as [IHsize IHkeys]. clear IH.
    rewrite map_app. cbn [map]. rewrite started_snoc. cbn [call Mounter.mount].
    set (calls := map (fun x => CallMount (quiet_mount x.1.1) x.1.2 x.2 None) ms) in *.
    set (w1 := started d host calls) in *.
    assert (Hparent : exists parent,
              getParentNode d None w1 = (Returned (Some parent), w1)).
    { unfold getParentNode, ret. destruct d as [dn|]; [eauto |].
      unfold w1. rewrite started_document, Hbody. eauto. }
    destruct Hparent as [parent Hparent].
    rewrite (mount_quiet d (quiet_mount x.1.1) x.1.2 x.2 None w1 parent);
      try reflexivity; try exact Hparent.
    2: { unfold w1. rewrite started_document, Hbody. eauto. }
    2: { apply (reachable_invariant d). apply started_reachable. }
    cbn [snd before_mounted confirms random quiet_mount].
    assert (Hnew : confirms w1 !! generateKey x.1.1 = None).
    { destruct (confirms w1 !! generateKey x.1.1) eqn:Hk; [exfalso | reflexivity].
      destruct (tracked_was_drawn d host calls (generateKey x.1.1))
        as (z & Hz & Heq); [fold w1; rewrite Hk; eauto |].
      change (generateKey x.1.1) with (Js.toString16 (draw (quiet_mount x.1.1))) in Heq.
      apply toString16_inj in Heq. subst z.
      unfold calls in Hz. rewrite draws_of_mounts in Hz.
      apply (Hfresh (draw (quiet_mount x.1.1))).
      - now apply list_elem_of_In.
      - cbn. apply list_elem_of_singleton. reflexivity. }
    split.
    + rewrite map_size_insert_None by exact Hnew.
      rewrite IHsize, length_app. cbn. lia.
    + intros y Hy. apply elem_of_app in Hy as [Hy | Hy].
      * apply lookup_insert_is_Some'. right. now apply IHkeys.
      * apply list_elem_of_singleton in Hy. subst y.
        rewrite lookup_insert_eq. eauto.
Qed.

Lemma X13_mounts_accumulate_witness :
  document page = Some {| body := Some 0%nat |} /\
  NoDup (map (fun x : Q * Component * Props => draw (quiet_mount x.1.1))
           [(lucky, "Dialog", []); (43 # 1073741824, "Dialog", [])]) /\
  size (confirms (started None page
          [CallMount (quiet_mount lucky) "Dialog" [] None;
           CallMount (quiet_mount (43 # 1073741824)) "Dialog" [] None])) = 2%nat.
Proof.
  assert (Hb : document page = Some {| body := Some 0%nat |}) by reflexivity.
  assert (Hd : NoDup (map (fun x : Q * Component * Props => draw (quiet_mount x.1.1))
                        [(lucky, "Dialog", []); (43 # 1073741824, "Dialog", [])])).
  { apply (bool_decide_unpack _). vm_compute. exact I. }
  split; [exact Hb |]. split; [exact Hd |].
  exact (proj1 (X13_mounts_accumulate None page 0%nat _ Hb Hd)).
Defined.

(** ** Tearing down a tracked dialog *)

(** X14. At any point of a mounter's life, [unmount] of a tracked key in a
    host that does not throw releases the dialog completely: the key is no
    longer tracked, the wrapper has no parent, the root is marked unmounted
    and holds no element, and nothing is written to the console. *)
Theorem X14_unmount_releases_tracked_dialog
    (d : option Node) (h : UnmountHost) (key : string) (w : World)
    (e : ConfirmationEntry)
    (Hreach : reachable d w) (Htracked : confirms w !! key = Some e)
    (Hquiet : unmount_throws h = None /\ remove_throws h = None) :
  exists w',
    unmount h key w = (Returned tt, w') /\
    confirms w' !! key = None /\
    dom_parent w' !! wrapper e = None /\
    roots w' !! root e
    = Some {| container := wrapper e; rendered := None; unmounted := true |} /\
    console w' = console w.
Proof.
  destruct Hquiet as [Hq1 Hq2].
  destruct (reachable_entries_live d w key e Hreach Htracked) as [el Hroot].
  destruct (teardown_effects h key w e Htracked)
    as (w' & Hrun & Hlog & Hdom & Hrt).
  exists w'. split; [exact Hrun |].
  split.
  { replace w' with (snd (unmount h key w)) by now rewrite Hrun.
    rewrite unmount_confirms. apply lookup_delete_eq. }
  split; [now apply Hdom |].
  split; [apply (Hrt Hq1 _ Hroot) |].
  rewrite Hlog, Hq1, Hq2. now rewrite !app_nil_r.
Qed.

Lemma X14_unmount_releases_tracked_dialog_witness :
  reachable None page2 /\
  confirms page2 !! "2a" = Some {| wrapper := 1%nat; root := 0%nat |} /\
  dom_parent (snd (unmount quiet_unmount "2a" page2)) !! 1%nat = None /\
  console (snd (unmount quiet_unmount "2a" page2)) = [].
Proof.
  assert (H : confirms page2 !! "2a" = Some {| wrapper := 1%nat; root := 0%nat |})
    by (vm_compute; reflexivity).
  split; [exact page2_reachable |]. split; [exact H |].
  destruct (X14_unmount_releases_tracked_dialog None quiet_unmount "2a" page2 _
              page2_reachable H (conj eq_refl eq_refl))
    as (w' & Hrun & _ & Hdom & _ & Hlog).
  rewrite Hrun. cbn [snd]. split; [exact Hdom |].
  etransitivity; [exact Hlog | vm_compute; reflexivity].
Defined.
